(** * C3DC Prefect data loader: a shallow embedding of [prefect_data_loader.py]

    The flow [c3dc_hub_data_loader] reads three secrets, checks that the
    checked-out model carries the tag the operator asked for, derives a
    property file from the model description and hands one [Config] object to
    the bulk loader.  Python [str] values are Rocq strings, Python [dict]s are
    insertion-ordered association lists ([pydict]), the file system and the
    secret are finite maps, and exceptions, [print] and file writes are
    threaded through a small state-and-exception monad ([M]). *)

From Stdlib Require Import Ascii DecimalString.
From stdpp Require Import gmap strings list fin_maps.

Set Warnings "-register-all".

(** ** Python strings *)

Module PyStr.

(** [sub in s] *)
Fixpoint str_in (sub s : string) : bool :=
  if String.prefix sub s then true
  else match s with
       | EmptyString => false
       | String _ s' => str_in sub s'
       end.

(** [s.endswith(suffix)] *)
Fixpoint endswith (s suffix : string) : bool :=
  if String.eqb s suffix then true
  else match s with
       | EmptyString => false
       | String _ s' => endswith s' suffix
       end.

(** [s[:-1]] *)
Fixpoint drop_last (s : string) : string :=
  match s with
  | EmptyString => EmptyString
  | String _ EmptyString => EmptyString
  | String c s' => String c (drop_last s')
  end.

(** [s.split(sep)] for a separator of one character; the result is never
    empty. *)
Fixpoint split (sep : ascii) (s : string) : list string :=
  match s with
  | EmptyString => [EmptyString]
  | String c s' =>
      if Ascii.eqb c sep then EmptyString :: split sep s'
      else match split sep s' with
           | [] => [String c EmptyString]
           | w :: ws => String c w :: ws
           end
  end.

(** [sep.join(l)] *)
Fixpoint join (sep : string) (l : list string) : string :=
  match l with
  | [] => EmptyString
  | [w] => w
  | w :: ws => w +:+ sep +:+ join sep ws
  end.

(** [l[-1]], on the non-empty lists [split] returns *)
Definition last_item (l : list string) : string := List.last l EmptyString.

(** [l[:-1]] *)
Definition but_last (l : list string) : list string := List.removelast l.

(** [str.isspace] on one character (code points below 256) *)
Definition isspace (c : ascii) : bool :=
  let n := nat_of_ascii c in
  ((9 <=? n) && (n <=? 13)) || ((28 <=? n) && (n <=? 32))
  || (n =? 133) || (n =? 160).

Fixpoint lstrip (s : string) : string :=
  match s with
  | EmptyString => EmptyString
  | String c s' => if isspace c then lstrip s' else s
  end.

Fixpoint rstrip (s : string) : string :=
  match s with
  | EmptyString => EmptyString
  | String c s' =>
      match rstrip s' with
      | EmptyString => if isspace c then EmptyString else String c EmptyString
      | r => String c r
      end
  end.

(** [s.strip()] *)
Definition strip (s : string) : string := rstrip (lstrip s).

(** [str(x)] inside an f-string, for a value that is a string or [None] *)
Definition str_of_optional (x : option string) : string :=
  match x with
  | Some s => s
  | None => "None"
  end.

End PyStr.

(** ** Python dictionaries: insertion-ordered, one entry per key *)

Module PyDict.

Definition pydict (V : Type) : Type := list (string * V).

(** [d.get(k)]; [d[k]] raises [KeyError] where this is [None]. *)
Fixpoint getitem {V} (d : pydict V) (k : string) : option V :=
  match d with
  | [] => None
  | (k', v) :: d' => if String.eqb k' k then Some v else getitem d' k
  end.

(** [d[k] = v]: an existing key keeps its position, a new one goes last. *)
Fixpoint setitem {V} (d : pydict V) (k : string) (v : V) : pydict V :=
  match d with
  | [] => [(k, v)]
  | (k', v') :: d' =>
      if String.eqb k' k then (k', v) :: d' else (k', v') :: setitem d' k v
  end.

(** [list(d.keys())] *)
Definition keys {V} (d : pydict V) : list string := map fst d.

End PyDict.

Import PyStr PyDict.

(** ** Values, exceptions and the loader's configuration object *)

(** What [yaml.safe_load] returns and [yaml.dump] accepts.  Mapping keys are
    strings, as the node names of a model description are.  A document with
    a key that is not a string (a number, a Boolean, a date) is outside this
    type: on such a node name the test ["_" in node] raises [TypeError]. *)
Inductive pyval : Type :=
  | PyNone
  | PyBool (b : bool)
  | PyInt (z : Z)
  | PyStr (s : string)
  | PyList (l : list pyval)
  | PyDict (d : list (string * pyval)).

Inductive exn : Type :=
  | YAMLError
  | KeyError (key : string)
  | TypeError
  | AttributeError
  | ValueError (msg : string)
  | FileNotFoundError (path : string)
  | CalledProcessError
  | ExternalError (what : string)
  | ParameterTypeError.

(** [PluginConfig(plugin)] of the loader's [config] module: an object built
    from its one argument. *)
Inductive PluginConfig : Type :=
  | mkPluginConfig (plugin : pyval).

Module Config.
Record t : Type := mk {
  dataset : string;
  uri : string;
  user : string;
  password : string;
  schema : list string;
  prop_file : string;
  bucket : string;
  s3_folder : string;
  backup_folder : string;
  cheat_mode : bool;
  dry_run : bool;
  wipe_db : bool;
  no_backup : bool;
  no_parents : bool;
  verbose : bool;
  yes : bool;
  max_violations : Z;
  mode : string;
  split_transactions : bool;
  upload_log_dir : option string;
  plugins : list PluginConfig;
  temp_folder : string;
  config_file : option string
}.

(** [Config.__init__] *)
Definition init (dataset uri user password : string) (schemas : list string)
    (prop_file bucket s3_folder backup_folder : string)
    (cheat_mode dry_run wipe_db no_backup no_parents verbose yes : bool)
    (max_violation : Z) (mode : string) (split_transaction : bool)
    (upload_log_dir : option string) (plugins : list pyval)
    (temp_folder : string) : t :=
  {| dataset := dataset;
     uri := uri;
     user := user;
     password := password;
     schema := schemas;
     prop_file := prop_file;
     bucket := bucket;
     s3_folder := s3_folder;
     backup_folder := backup_folder;
     cheat_mode := cheat_mode;
     dry_run := dry_run;
     wipe_db := wipe_db;
     no_backup := no_backup;
     no_parents := no_parents;
     verbose := verbose;
     yes := yes;
     max_violations := max_violation;
     mode := mode;
     split_transactions := split_transaction;
     upload_log_dir := upload_log_dir;
     plugins := map mkPluginConfig plugins;
     temp_folder := temp_folder;
     config_file := None |}.
End Config.

(** ** The world the flow runs in *)

Inductive event : Type :=
  | Printed (line : string)
  | SecretFetched (name : string)
  | Subprocess (cmd : list string) (cwd : string)
  | FileRead (path : string)
  | FileWritten (path content : string)
  | LoaderInvoked (params : Config.t).

Record world : Type := mkWorld {
  files : gmap string string;
  events : list event
}.

Inductive outcome (A : Type) : Type :=
  | Returned (a : A)
  | Raised (e : exn).
Arguments Returned {A} a.
Arguments Raised {A} e.

(** A computation reads and changes the world and returns or raises; what it
    did before raising stays done. *)
Definition M (A : Type) : Type := world -> outcome A * world.

Definition ret {A} (a : A) : M A := fun w => (Returned a, w).

Definition raise {A} (e : exn) : M A := fun w => (Raised e, w).

Definition bind {A B} (c : M A) (k : A -> M B) : M B :=
  fun w =>
    match c w with
    | (Returned a, w') => k a w'
    | (Raised e, w') => (Raised e, w')
    end.

Declare Scope py_scope.
Delimit Scope py_scope with py.
Notation "x <- c1 ;; c2" := (bind c1 (fun x => c2))
  (at level 100, c1 at next level, right associativity) : py_scope.
Notation "c1 ;; c2" := (bind c1 (fun _ => c2))
  (at level 100, right associativity) : py_scope.
Open Scope py_scope.

Definition log (e : event) : M unit :=
  fun w => (Returned tt, {| files := files w; events := events w ++ [e] |}).

(** [print(line)] *)
Definition print (line : string) : M unit := log (Printed line).

(** [open(path, "r").read()] *)
Definition read_file (path : string) : M string :=
  fun w =>
    match files w !! path with
    | Some content =>
        (Returned content,
         {| files := files w; events := events w ++ [FileRead path] |})
    | None => (Raised (FileNotFoundError path), w)
    end.

(** [open(path, "w").write(content)]: the file is created or truncated.
    A file is known by the string that names it: two strings that the
    operating system resolves to one file ([props_file.yaml] and
    [./props_file.yaml]) are two files here. *)
Definition write_file (path content : string) : M unit :=
  fun w =>
    (Returned tt,
     {| files := <[path := content]> (files w);
        events := events w ++ [FileWritten path content] |}).

(** [d[key]] on a dictionary of strings, as on the secret *)
Definition lookup_key (d : gmap string string) (key : string) : M string :=
  match d !! key with
  | Some v => ret v
  | None => raise (KeyError key)
  end.

(** [v[key]] on a loaded YAML value *)
Definition subscript (v : pyval) (key : string) : M pyval :=
  match v with
  | PyDict d =>
      match getitem d key with
      | Some x => ret x
      | None => raise (KeyError key)
      end
  | _ => raise TypeError
  end.

(** [list(v.keys())] *)
Definition keys_of (v : pyval) : M (list string) :=
  match v with
  | PyDict d => ret (keys d)
  | _ => raise AttributeError
  end.

(** ** Time stamps *)

Record datetime : Type := mkDatetime {
  year : nat;
  month : nat;
  day : nat;
  hour : nat;
  minute : nat;
  second : nat;
  microsecond : nat
}.

Definition decimal (n : nat) : string := NilEmpty.string_of_uint (Nat.to_uint n).

Fixpoint zeros (n : nat) : string :=
  match n with
  | O => EmptyString
  | S n' => String "0" (zeros n')
  end.

(** [str(n).zfill(width)] *)
Definition zfill (width n : nat) : string :=
  let s := decimal n in zeros (width - String.length s) +:+ s.

(** [dt.strftime(fmt)] for the directives the loader uses; any other
    character is copied.  [%Y] is the year in four digits, as all platforms
    print the years from 1000 on; below 1000 some C libraries leave the
    zeros out, and what is said of the width of a time stamp is said for
    years from 1000. *)
Fixpoint strftime (dt : datetime) (fmt : string) : string :=
  match fmt with
  | EmptyString => EmptyString
  | String "%" (String d rest) =>
      (if Ascii.eqb d "Y" then zfill 4 (year dt)
       else if Ascii.eqb d "m" then zfill 2 (month dt)
       else if Ascii.eqb d "d" then zfill 2 (day dt)
       else if Ascii.eqb d "H" then zfill 2 (hour dt)
       else if Ascii.eqb d "M" then zfill 2 (minute dt)
       else if Ascii.eqb d "S" then zfill 2 (second dt)
       else String "%" (String d EmptyString))
      +:+ strftime dt rest
  | String c rest => String c (strftime dt rest)
  end.

(** ** The collaborators outside this repository *)

Record externals : Type := mkExternals {
  (** [inflect.engine().plural], taken as defined on every word; releases
      of inflect that refuse the empty word raise on a node name that ends
      in ["_"], where this function still answers. *)
  inflect_plural : string -> string;
  (** [yaml.safe_load] on a file's content; [None] when it raises *)
  yaml_safe_load : string -> option pyval;
  (** [yaml.dump(doc, sort_keys=...)] *)
  yaml_dump : pyval -> bool -> string;
  (** [bento.common.secret_manager.get_secret] *)
  secret_manager_get_secret : string -> exn + gmap string string;
  (** [subprocess.check_output(cmd, cwd=..., text=True)] *)
  subprocess_check_output : list string -> string -> exn + string;
  (** [datetime.now(timezone(name))] *)
  datetime_now : string -> datetime;
  (** [loader.main]; [Some e] when it raises [e] *)
  loader_main : Config.t -> option exn
}.

Definition NEO4J_URI : string := "neo4j_uri".
Definition NEO4J_PASSWORD : string := "neo4j_password".
Definition SUBMISSION_BUCKET : string := "submission_bucket".

(** The defaults of [load_data] that the flow leaves in place. *)
Module LoadDataDefault.
Definition user : string := "neo4j".
Definition backup_folder : string := "tmp/data-loader-backups".
Definition no_parents : bool := true.
Definition verbose : bool := false.
End LoadDataDefault.

Definition mismatch_message : string :=
  "The model branch pulled is not the same as the input model tag".

(** ** The functions of [prefect_data_loader.py]

    Each definition is the body of the Python function of its name.
    Prefect's [@task] adds nothing to a call; what [@flow] adds to a call of
    the entry point is in [c3dc_hub_data_loader_flow] below. *)

Section Flow.

Context (ext : externals).

(** The call of [get_secret], recorded in the events. *)
Definition get_secret (secret_name : string) : M (gmap string string) :=
  log (SecretFetched secret_name);;
  match secret_manager_get_secret ext secret_name with
  | inr secret => ret secret
  | inl e => raise e
  end.

(** The call of the loader's [main], recorded in the events. *)
Definition main (params : Config.t) : M unit :=
  log (LoaderInvoked params);;
  match loader_main ext params with
  | None => ret tt
  | Some e => raise e
  end.

Definition get_time : M string :=
  let now := datetime_now ext "EST" in
  let dt_string := strftime now "%Y%m%d_T%H%M%S" in
  ret dt_string.

Definition get_git_tag (repo_path : string) : M (option string) :=
  let cmd := ["git"; "describe"; "--tags"; "--exact-match"] in
  log (Subprocess cmd repo_path);;
  match subprocess_check_output ext cmd repo_path with
  | inr out => ret (Some (strip out))
  | inl CalledProcessError =>
      print "No tag found for the current commit.";;
      ret None
  | inl e => raise e
  end.

(** The plural of one node name (the body of the loop up to
    [plural_dict[node] = node_plural]). *)
Definition node_plural (node : string) : string :=
  if str_in "_" node then
    let last_word := last_item (split "_" node) in
    let last_word_plural := inflect_plural ext last_word in
    let node_name_list := but_last (split "_" node) ++ [last_word_plural] in
    join "_" node_name_list
  else inflect_plural ext node.

(** One turn of [for node in node_list] on the two dictionaries. *)
Definition node_loop_body (acc : pydict string * pydict string)
    (node : string) : pydict string * pydict string :=
  let '(plural_dict, id_dict) := acc in
  (setitem plural_dict node (node_plural node), setitem id_dict node "id").

Definition node_loop (node_list : list string)
    : pydict string * pydict string :=
  fold_left node_loop_body node_list ([], []).

Definition str_dict (d : pydict string) : pyval :=
  PyDict (map (fun kv => (fst kv, PyStr (snd kv))) d).

Definition type_mapping : pydict pyval :=
  [("string", PyStr "String");
   ("number", PyStr "Float");
   ("integer", PyStr "Int");
   ("boolean", PyStr "Boolean");
   ("array", PyStr "Array");
   ("object", PyStr "Object");
   ("datetime", PyStr "DateTime");
   ("date", PyStr "Date");
   ("TBD", PyStr "String")].

(** The dictionary handed to [yaml.dump].  [properties] is the one object
    that [return_dict["Properties"]] refers to throughout. *)
Definition return_dict (domain_value delimiter : string)
    (plural_dict id_dict : pydict string) : pyval :=
  let properties := [] in
  let properties := setitem properties "domain_value" (PyStr domain_value) in
  let properties := setitem properties "rel_prop_delimiter" (PyStr "$") in
  let properties := setitem properties "delimiter" (PyStr delimiter) in
  let properties := setitem properties "plurals" (str_dict plural_dict) in
  let properties := setitem properties "type_mapping" (PyDict type_mapping) in
  let properties := setitem properties "id_fields" (str_dict id_dict) in
  PyDict (setitem [] "Properties" (PyDict properties)).

Definition create_prop_file (model_yaml delimiter domain_value : string)
    : M string :=
  model <- read_file model_yaml;;
  model_dict <- match yaml_safe_load ext model with
                | Some doc => ret doc
                | None => raise YAMLError
                end;;
  nodes <- subscript model_dict "Nodes";;
  node_list <- keys_of nodes;;
  let '(plural_dict, id_dict) := node_loop node_list in
  let prop_file_name := "props_file.yaml" in
  write_file prop_file_name
    (yaml_dump ext (return_dict domain_value delimiter plural_dict id_dict)
       false);;
  print "Print the content of props_file.yaml";;
  file_contents <- read_file prop_file_name;;
  print file_contents;;
  ret prop_file_name.

Definition load_data (s3_bucket s3_folder : string)
    (upload_log_dir : option string)
    (dataset temp_folder uri user password : string) (schemas : list string)
    (prop_file backup_folder : string)
    (cheat_mode dry_run wipe_db no_backup no_parents verbose yes : bool)
    (max_violation : Z) (mode : string) (split_transaction : bool)
    (plugins : list pyval) : M unit :=
  let params :=
    Config.init dataset uri user password schemas prop_file s3_bucket
      s3_folder backup_folder cheat_mode dry_run wipe_db no_backup
      no_parents verbose yes max_violation mode split_transaction
      upload_log_dir plugins temp_folder in
  main params;;
  ret tt.

(** [metadata_folder] after "process metadata_folder if needed" *)
Definition normalize_metadata_folder (metadata_folder : string) : string :=
  if negb (endswith metadata_folder "/") then metadata_folder +:+ "/"
  else metadata_folder.

(** [runner] after [if runner.endswith("/"): runner = runner[:-1]] *)
Definition normalize_runner (runner : string) : string :=
  if endswith runner "/" then drop_last runner else runner.

(** [f's3://{s3_bucket}/{runner}/{log_folder}/logs'] *)
Definition upload_log_dir_of (s3_bucket runner log_folder : string)
    : string :=
  "s3://" +:+ s3_bucket +:+ "/" +:+ runner +:+ "/" +:+ log_folder +:+ "/logs".

Definition c3dc_hub_data_loader (secret_name metadata_folder runner
    model_tag : string) (cheat_mode dry_run wipe_db : bool) (mode : string)
    (split_transaction : bool) : M unit :=
  print "Getting secrets from AWS Secrets Manager";;
  secret <- get_secret secret_name;;
  uri <- lookup_key secret NEO4J_URI;;
  password <- lookup_key secret NEO4J_PASSWORD;;
  s3_bucket <- lookup_key secret SUBMISSION_BUCKET;;
  pulled_model_branch <- get_git_tag "../c3dc-model/";;
  print ("Provided model tag: " +:+ model_tag);;
  print ("Pulled c3dc-model tag: " +:+ str_of_optional pulled_model_branch);;
  (if bool_decide (Some model_tag = pulled_model_branch) then
     print "The model branch pulled is the same as the input model tag"
   else
     print "The model branch pulled is not the same as the input model tag";;
     print ("The model branch pulled is "
            +:+ str_of_optional pulled_model_branch
            +:+ " and the input model tag is " +:+ model_tag
            +:+ ". Redeployment using the desired model tag is required.");;
     raise (ValueError mismatch_message));;
  let metadata_folder := normalize_metadata_folder metadata_folder in
  let s3_folder := metadata_folder in
  dt_string <- get_time;;
  let log_folder := "prefect_c3dc_dataloader_" +:+ dt_string in
  let runner := normalize_runner runner in
  let upload_log_dir := upload_log_dir_of s3_bucket runner log_folder in
  let schemas := ["../c3dc-model/model-desc/c3dc-model.yml";
                  "../c3dc-model/model-desc/c3dc-model-props.yml"] in
  let domain_value := "clinicalcommons.ccdi.cancer.gov" in
  let metadata_delimiter := ";" in
  prop_file <- create_prop_file (nth 0 schemas "") metadata_delimiter
                 domain_value;;
  print "start loading data";;
  load_data s3_bucket s3_folder (Some upload_log_dir) "data" "tmp" uri
    LoadDataDefault.user password schemas prop_file
    LoadDataDefault.backup_folder cheat_mode dry_run wipe_db true
    LoadDataDefault.no_parents LoadDataDefault.verbose true 1000000 mode
    split_transaction [];;
  print ("log file can be found in the s3 location " +:+ upload_log_dir);;
  ret tt.

End Flow.

(** ** The entry point as Prefect calls it

    [@flow] checks the arguments of a call against the annotations of the
    function before its body runs, and raises [ParameterTypeError] when one
    does not fit.  A string fits [str] and a Boolean fits [DropDownChoices];
    [mode] fits [ModeDropDownChoices] when it is one of the three modes. *)




(** * Definitions used to state the properties *)

(** [v[k]] on a document, [None] where Python raises *)
Definition pyval_item (v : pyval) (k : string) : option pyval :=
  match v with
  | PyDict d => getitem d k
  | _ => None
  end.

(** The events a computation added are those after the ones it started with. *)
Definition added (w w' : world) (new : list event) : Prop :=
  events w' = events w ++ new.

Definition is_file_write (ev : event) : bool :=
  match ev with
  | FileWritten _ _ => true
  | _ => false
  end.

Definition is_loader_call (ev : event) : bool :=
  match ev with
  | LoaderInvoked _ => true
  | _ => false
  end.

(** The world with more events and the same files. *)
Definition emit (w : world) (new : list event) : world :=
  {| files := files w; events := events w ++ new |}.

Section PropFileRuns.

Context (ext : externals).

(** The document [create_prop_file] dumps for a model with these nodes. *)
Definition prop_document (domain_value delimiter : string)
    (node_list : list string) : pyval :=
  return_dict domain_value delimiter
    (fst (node_loop ext node_list)) (snd (node_loop ext node_list)).

Definition prop_file_text (domain_value delimiter : string)
    (node_list : list string) : string :=
  yaml_dump ext (prop_document domain_value delimiter node_list) false.

(** The world after a derivation that went through. *)
Definition after_prop_file (model_yaml text : string) (w : world) : world :=
  {| files := <["props_file.yaml" := text]> (files w);
     events := events w ++
       [FileRead model_yaml;
        FileWritten "props_file.yaml" text;
        Printed "Print the content of props_file.yaml";
        FileRead "props_file.yaml";
        Printed text] |}.

(** Why a derivation raises: the model file is missing, is not YAML, or
    has no mapping under ["Nodes"]. *)
Inductive prop_file_failure (model_yaml : string) (fs : gmap string string)
    : exn -> list event -> Prop :=
  | fail_no_file :
      fs !! model_yaml = None ->
      prop_file_failure model_yaml fs (FileNotFoundError model_yaml) []
  | fail_parse content :
      fs !! model_yaml = Some content ->
      yaml_safe_load ext content = None ->
      prop_file_failure model_yaml fs YAMLError [FileRead model_yaml]
  | fail_subscript content doc e w1 :
      fs !! model_yaml = Some content ->
      yaml_safe_load ext content = Some doc ->
      subscript doc "Nodes" w1 = (Raised e, w1) ->
      prop_file_failure model_yaml fs e [FileRead model_yaml]
  | fail_keys content doc nodes e w1 :
      fs !! model_yaml = Some content ->
      yaml_safe_load ext content = Some doc ->
      subscript doc "Nodes" w1 = (Returned nodes, w1) ->
      keys_of nodes w1 = (Raised e, w1) ->
      prop_file_failure model_yaml fs e [FileRead model_yaml].

End PropFileRuns.

(** ** Runs of the flow *)

Definition git_describe_cmd : list string :=
  ["git"; "describe"; "--tags"; "--exact-match"].

Definition model_repo : string := "../c3dc-model/".

Definition model_schemas : list string :=
  ["../c3dc-model/model-desc/c3dc-model.yml";
   "../c3dc-model/model-desc/c3dc-model-props.yml"].

Definition timestamp_format : string := "%Y%m%d_T%H%M%S".

Section FlowRuns.

Context (ext : externals).

(** What [get_git_tag] returns or raises; it does not depend on the world. *)
Definition tag_resolution (repo_path : string) : outcome (option string) :=
  match subprocess_check_output ext git_describe_cmd repo_path with
  | inr out => Returned (Some (strip out))
  | inl CalledProcessError => Returned None
  | inl e => Raised e
  end.

(** The three values the flow reads from the secret. *)
Definition secret_fields (secret : gmap string string)
    : option (string * string * string) :=
  match secret !! NEO4J_URI, secret !! NEO4J_PASSWORD,
        secret !! SUBMISSION_BUCKET with
  | Some uri, Some password, Some s3_bucket => Some (uri, password, s3_bucket)
  | _, _, _ => None
  end.

Context (secret_name metadata_folder runner model_tag : string)
        (cheat_mode dry_run wipe_db : bool) (mode : string)
        (split_transaction : bool).

(** The log folder and the upload directory of a run. *)
Definition run_log_folder : string :=
  "prefect_c3dc_dataloader_"
  +:+ strftime (datetime_now ext "EST") timestamp_format.

Definition run_upload_log_dir (s3_bucket : string) : string :=
  upload_log_dir_of s3_bucket (normalize_runner runner) run_log_folder.

(** The object the flow hands to the loader. *)
Definition run_params (uri password s3_bucket : string) : Config.t :=
  Config.init "data" uri LoadDataDefault.user password model_schemas
    "props_file.yaml" s3_bucket (normalize_metadata_folder metadata_folder)
    LoadDataDefault.backup_folder cheat_mode dry_run wipe_db true
    LoadDataDefault.no_parents LoadDataDefault.verbose true 1000000 mode
    split_transaction (Some (run_upload_log_dir s3_bucket)) [] "tmp".

(** What the flow has printed and called when it reaches the comparison. *)
Definition guard_events (resolved : option string) : list event :=
  [Printed "Getting secrets from AWS Secrets Manager";
   SecretFetched secret_name;
   Subprocess git_describe_cmd model_repo]
  ++ match resolved with
     | None => [Printed "No tag found for the current commit."]
     | Some _ => []
     end
  ++ [Printed ("Provided model tag: " +:+ model_tag);
      Printed ("Pulled c3dc-model tag: " +:+ str_of_optional resolved)].

Definition mismatch_events (resolved : option string) : list event :=
  [Printed "The model branch pulled is not the same as the input model tag";
   Printed ("The model branch pulled is " +:+ str_of_optional resolved
            +:+ " and the input model tag is " +:+ model_tag
            +:+ ". Redeployment using the desired model tag is required.")].

Definition match_event : event :=
  Printed "The model branch pulled is the same as the input model tag".

Definition prop_file_events (text : string) : list event :=
  [FileRead "../c3dc-model/model-desc/c3dc-model.yml";
   FileWritten "props_file.yaml" text;
   Printed "Print the content of props_file.yaml";
   FileRead "props_file.yaml";
   Printed text].

Definition load_events (params : Config.t) : list event :=
  [Printed "start loading data"; LoaderInvoked params]
  ++ match loader_main ext params with
     | None =>
         [Printed ("log file can be found in the s3 location "
                   +:+ default "" (Config.upload_log_dir params))]
     | Some _ => []
     end.

Definition load_outcome (params : Config.t) : outcome unit :=
  match loader_main ext params with
  | None => Returned tt
  | Some e => Raised e
  end.

(** The ways a run of the flow can go, in the order of the code. *)
Inductive flow_run (w : world) : outcome unit -> world -> Prop :=
  | run_secret_error e w' :
      secret_manager_get_secret ext secret_name = inl e ->
      files w' = files w ->
      added w w' [Printed "Getting secrets from AWS Secrets Manager";
                  SecretFetched secret_name] ->
      flow_run w (Raised e) w'
  | run_secret_key secret key w' :
      secret_manager_get_secret ext secret_name = inr secret ->
      secret_fields secret = None ->
      files w' = files w ->
      added w w' [Printed "Getting secrets from AWS Secrets Manager";
                  SecretFetched secret_name] ->
      flow_run w (Raised (KeyError key)) w'
  | run_git_error secret fields e w' :
      secret_manager_get_secret ext secret_name = inr secret ->
      secret_fields secret = Some fields ->
      tag_resolution model_repo = Raised e ->
      files w' = files w ->
      added w w' [Printed "Getting secrets from AWS Secrets Manager";
                  SecretFetched secret_name;
                  Subprocess git_describe_cmd model_repo] ->
      flow_run w (Raised e) w'
  | run_mismatch secret fields resolved w' :
      secret_manager_get_secret ext secret_name = inr secret ->
      secret_fields secret = Some fields ->
      tag_resolution model_repo = Returned resolved ->
      resolved <> Some model_tag ->
      files w' = files w ->
      added w w' (guard_events resolved ++ mismatch_events resolved) ->
      flow_run w (Raised (ValueError mismatch_message)) w'
  | run_prop_failure secret fields e new w' :
      secret_manager_get_secret ext secret_name = inr secret ->
      secret_fields secret = Some fields ->
      tag_resolution model_repo = Returned (Some model_tag) ->
      prop_file_failure ext "../c3dc-model/model-desc/c3dc-model.yml"
        (files w) e new ->
      files w' = files w ->
      added w w' (guard_events (Some model_tag) ++ [match_event] ++ new) ->
      flow_run w (Raised e) w'
  | run_loaded secret uri password s3_bucket content d nodes w' :
      secret_manager_get_secret ext secret_name = inr secret ->
      secret_fields secret = Some (uri, password, s3_bucket) ->
      tag_resolution model_repo = Returned (Some model_tag) ->
      files w !! "../c3dc-model/model-desc/c3dc-model.yml" = Some content ->
      yaml_safe_load ext content = Some (PyDict d) ->
      getitem d "Nodes" = Some (PyDict nodes) ->
      let text := prop_file_text ext "clinicalcommons.ccdi.cancer.gov" ";"
                    (keys nodes) in
      let params := run_params uri password s3_bucket in
      files w' = <["props_file.yaml" := text]> (files w) ->
      added w w' (guard_events (Some model_tag) ++ [match_event]
                  ++ prop_file_events text ++ load_events params) ->
      flow_run w (load_outcome params) w'.

End FlowRuns.

(** The objects the loader was called with, in order. *)
Definition loader_calls (w : world) : list Config.t :=
  omap (fun ev => match ev with
                  | LoaderInvoked params => Some params
                  | _ => None
                  end) (events w).

(** An event that neither writes a file nor calls the loader. *)
Definition harmless (ev : event) : Prop :=
  is_file_write ev = false /\ is_loader_call ev = false.

(** ** A small deployment to run the flow on *)

Module Sample.

Definition plural (word : string) : string :=
  if String.eqb word "diagnosis" then "diagnoses" else word +:+ "s".

Definition model_path : string := "../c3dc-model/model-desc/c3dc-model.yml".

(** A model with two nodes, one without a top-level ["Nodes"], and text that
    is not YAML. *)
Definition model : pyval :=
  PyDict [("Nodes",
           PyDict [("diagnosis", PyDict [("Props", PyList [PyStr "id"])]);
                   ("study_arm", PyNone)])].

Definition safe_load (text : string) : option pyval :=
  if String.eqb text "Nodes: {diagnosis: {Props: [id]}, study_arm: null}"
  then Some model
  else if String.eqb text "Relationships: {}"
  then Some (PyDict [("Relationships", PyDict [])])
  else None.

Definition secret : gmap string string :=
  <[NEO4J_URI := "bolt://db:7687"]>
    (<[NEO4J_PASSWORD := "pw"]> (<[SUBMISSION_BUCKET := "bkt"]> ∅)).

(** The checked-out model is tagged [v2.3.0]. *)
Definition ext : externals :=
  {| inflect_plural := plural;
     yaml_safe_load := safe_load;
     yaml_dump := fun _ _ => "Properties: {}";
     secret_manager_get_secret := fun _ => inr secret;
     subprocess_check_output := fun _ _ => inr "v2.3.0
";
     datetime_now := fun _ => mkDatetime 2024 3 7 9 5 1 250;
     loader_main := fun _ => None |}.

(** The same deployment with an untagged checkout. *)
Definition ext_untagged : externals :=
  {| inflect_plural := plural;
     yaml_safe_load := safe_load;
     yaml_dump := fun _ _ => "Properties: {}";
     secret_manager_get_secret := fun _ => inr secret;
     subprocess_check_output := fun _ _ => inl CalledProcessError;
     datetime_now := fun _ => mkDatetime 2024 3 7 9 5 1 250;
     loader_main := fun _ => None |}.

Definition world_with (model_text : string) : world :=
  {| files := {[model_path := model_text]}; events := [] |}.

Definition good_world : world :=
  world_with "Nodes: {diagnosis: {Props: [id]}, study_arm: null}".

Definition run (metadata_folder runner model_tag : string)
    : outcome unit * world :=
  c3dc_hub_data_loader ext "c3dc/dev" metadata_folder runner model_tag
    false true false "upsert" true good_world.

End Sample.

(** ** Further definitions for the properties of each function *)

(** [s[0]] and [s[-1]], [None] on the empty string *)
Definition first_char (s : string) : option ascii :=
  match s with
  | EmptyString => None
  | String c _ => Some c
  end.

Fixpoint last_char (s : string) : option ascii :=
  match s with
  | EmptyString => None
  | String c EmptyString => Some c
  | String _ s' => last_char s'
  end.

(** The first of the three secret keys, in the order the flow reads them,
    that the secret lacks. *)
Definition first_missing_key (secret : gmap string string) : option string :=
  match secret !! NEO4J_URI with
  | None => Some NEO4J_URI
  | Some _ =>
      match secret !! NEO4J_PASSWORD with
      | None => Some NEO4J_PASSWORD
      | Some _ =>
          match secret !! SUBMISSION_BUCKET with
          | None => Some SUBMISSION_BUCKET
          | Some _ => None
          end
      end
  end.

(** Variants of the sample deployment. *)
Module Variant.

(** A pluralizer that leaves the uncountable [equipment] as it is. *)
Definition plural (word : string) : string :=
  if String.eqb word "equipment" then word else Sample.plural word.

(** Model files: a list at top level, a null [Nodes], two nodes in order. *)
Definition safe_load (text : string) : option pyval :=
  if String.eqb text "- a" then Some (PyList [PyStr "a"])
  else if String.eqb text "Nodes:" then Some (PyDict [("Nodes", PyNone)])
  else Sample.safe_load text.

Definition make (get_secret : string -> exn + gmap string string)
    (check_output : list string -> string -> exn + string)
    (loader : Config.t -> option exn) : externals :=
  {| inflect_plural := plural;
     yaml_safe_load := safe_load;
     yaml_dump := yaml_dump Sample.ext;
     secret_manager_get_secret := get_secret;
     subprocess_check_output := check_output;
     datetime_now := datetime_now Sample.ext;
     loader_main := loader |}.

(** The sample deployment with the pluralizer and the model files above. *)
Definition ext : externals :=
  make (secret_manager_get_secret Sample.ext)
    (subprocess_check_output Sample.ext) (loader_main Sample.ext).

(** A loader that fails. *)
Definition ext_loader_fails : externals :=
  make (secret_manager_get_secret Sample.ext)
    (subprocess_check_output Sample.ext)
    (fun _ => Some (ExternalError "neo4j unavailable")).

(** A secret without the password. *)
Definition ext_no_password : externals :=
  make (fun _ => inr (delete NEO4J_PASSWORD Sample.secret))
    (subprocess_check_output Sample.ext) (loader_main Sample.ext).

(** A machine without git. *)
Definition ext_no_git : externals :=
  make (secret_manager_get_secret Sample.ext)
    (fun _ _ => inl (FileNotFoundError "git")) (loader_main Sample.ext).

(** A run of the flow in one of these deployments. *)
Definition run (deployment : externals) (metadata_folder runner
    model_tag : string) : outcome unit * world :=
  c3dc_hub_data_loader deployment "c3dc/dev" metadata_folder runner model_tag
    false true false "upsert" true Sample.good_world.

End Variant.

(** * Facts about the string and dictionary operations *)

Section StringFacts.

Lemma str_in_char_cons (sep c : ascii) (s : string) :
  str_in (String sep EmptyString) (String c s)
  = Ascii.eqb c sep || str_in (String sep EmptyString) s.
Proof.
  cbn [str_in String.prefix].
  destruct (ascii_dec sep c) as [->|Hne].
  - rewrite Ascii.eqb_refl. now destruct s.
  - destruct (Ascii.eqb c sep) eqn:E; [|reflexivity].
    apply Ascii.eqb_eq in E. congruence.
Qed.

Lemma str_in_char_app (sep : ascii) (p w : string) :
  str_in (String sep EmptyString) (p +:+ String sep w) = true.
Proof.
  induction p as [|c p IH].
  - change (EmptyString +:+ String sep w) with (String sep w).
    rewrite str_in_char_cons, Ascii.eqb_refl. reflexivity.
  - change (String c p +:+ String sep w) with (String c (p +:+ String sep w)).
    rewrite str_in_char_cons, IH. apply orb_true_r.
Qed.

Lemma split_not_nil (sep : ascii) (s : string) : split sep s <> [].
Proof.
  destruct s as [|c s]; cbn [split]; [discriminate|].
  destruct (Ascii.eqb c sep); [discriminate|].
  destruct (split sep s); discriminate.
Qed.

(** A string without the separator is one segment. *)
Lemma split_no_sep (sep : ascii) (w : string) :
  str_in (String sep EmptyString) w = false -> split sep w = [w].
Proof.
  induction w as [|c w IH]; intros H; [reflexivity|].
  rewrite str_in_char_cons in H. apply orb_false_iff in H as [Hc Hw].
  cbn [split]. rewrite Hc, (IH Hw). reflexivity.
Qed.

(** Splitting at the last separator: the text after it is the last
    segment, the text before it gives the others. *)
Lemma split_app_last (sep : ascii) (p w : string) :
  str_in (String sep EmptyString) w = false ->
  split sep (p +:+ String sep w) = split sep p ++ [w].
Proof.
  intros Hw. induction p as [|c p IH].
  - change (EmptyString +:+ String sep w) with (String sep w).
    cbn [split]. rewrite Ascii.eqb_refl, (split_no_sep _ _ Hw). reflexivity.
  - change (String c p +:+ String sep w) with (String c (p +:+ String sep w)).
    cbn [split]. rewrite IH.
    destruct (Ascii.eqb c sep); [reflexivity|].
    destruct (split sep p) as [|x xs] eqn:E; [|reflexivity].
    now apply split_not_nil in E.
Qed.

(** Every string that contains the separator has a last occurrence. *)
Lemma str_in_char_last (sep : ascii) (s : string) :
  str_in (String sep EmptyString) s = true ->
  exists p w, s = p +:+ String sep w
              /\ str_in (String sep EmptyString) w = false.
Proof.
  induction s as [|c s IH]; intros H; [discriminate|].
  rewrite str_in_char_cons in H.
  destruct (str_in (String sep EmptyString) s) eqn:Hs.
  - destruct (IH eq_refl) as (p & w & -> & Hw).
    exists (String c p), w. split; [reflexivity|assumption].
  - rewrite orb_false_r in H. apply Ascii.eqb_eq in H as ->.
    exists EmptyString, s. split; [reflexivity|assumption].
Qed.

Lemma join_cons (sep w : string) (ws : list string) :
  ws <> [] -> join sep (w :: ws) = w +:+ sep +:+ join sep ws.
Proof. destruct ws; [congruence|reflexivity]. Qed.

Lemma string_app_cons (x : ascii) (a b : string) :
  String x a +:+ b = String x (a +:+ b).
Proof. reflexivity. Qed.

Lemma string_app_assoc (a b c : string) : (a +:+ b) +:+ c = a +:+ b +:+ c.
Proof.
  induction a as [|x a IH]; [reflexivity|].
  rewrite !string_app_cons. congruence.
Qed.

Lemma string_app_nil_r (a : string) : a +:+ EmptyString = a.
Proof.
  induction a as [|x a IH]; [reflexivity|].
  rewrite string_app_cons. congruence.
Qed.

Lemma join_snoc (sep x : string) (l : list string) :
  l <> [] -> join sep (l ++ [x]) = join sep l +:+ sep +:+ x.
Proof.
  induction l as [|w ws IH]; intros Hne; [congruence|].
  destruct ws as [|w' ws'].
  - reflexivity.
  - change ((w :: w' :: ws') ++ [x]) with (w :: ((w' :: ws') ++ [x])).
    rewrite join_cons by (destruct ws'; discriminate).
    rewrite IH by discriminate.
    rewrite (join_cons sep w (w' :: ws')) by discriminate.
    now rewrite !string_app_assoc.
Qed.

(** [sep.join(s.split(sep)) == s] *)
Lemma join_split (sep : ascii) (s : string) :
  join (String sep EmptyString) (split sep s) = s.
Proof.
  induction s as [|c s IH]; [reflexivity|].
  cbn [split]. destruct (Ascii.eqb c sep) eqn:E.
  - apply Ascii.eqb_eq in E as ->.
    rewrite join_cons by apply split_not_nil. now rewrite IH.
  - destruct (split sep s) as [|w ws] eqn:Es; [now apply split_not_nil in Es|].
    destruct ws as [|w' ws'].
    + cbn in *. now rewrite IH.
    + rewrite join_cons by discriminate.
      rewrite (join_cons _ w (w' :: ws')) in IH by discriminate.
      rewrite <- IH. reflexivity.
Qed.

Lemma but_last_snoc (l : list string) (x : string) : but_last (l ++ [x]) = l.
Proof. apply removelast_last. Qed.

Lemma last_item_snoc (l : list string) (x : string) :
  last_item (l ++ [x]) = x.
Proof. apply last_last. Qed.

Lemma endswith_refl (s : string) : endswith s s = true.
Proof. destruct s; cbn; [reflexivity|]. now rewrite Ascii.eqb_refl, String.eqb_refl. Qed.

(** [(s + "/").endswith("/")] *)
Lemma endswith_app_char (s : string) (c : ascii) :
  endswith (s +:+ String c EmptyString) (String c EmptyString) = true.
Proof.
  induction s as [|x s IH]; [apply endswith_refl|].
  change (String x s +:+ String c EmptyString)
    with (String x (s +:+ String c EmptyString)).
  cbn [endswith]. rewrite IH.
  now destruct (String.eqb _ _).
Qed.

(** [(s + "/")[:-1] == s] *)
Lemma drop_last_app_char (s : string) (c : ascii) :
  drop_last (s +:+ String c EmptyString) = s.
Proof.
  induction s as [|x s IH]; [reflexivity|].
  change (String x s +:+ String c EmptyString)
    with (String x (s +:+ String c EmptyString)).
  cbn [drop_last]. rewrite IH.
  destruct s; reflexivity.
Qed.

End StringFacts.

Section DictFacts.

Context {V : Type}.
Implicit Types (d : pydict V) (k : string) (v : V).

Lemma getitem_setitem_eq d k v : getitem (setitem d k v) k = Some v.
Proof.
  induction d as [|[k' v'] d IH]; cbn.
  - now rewrite String.eqb_refl.
  - destruct (String.eqb k' k) eqn:E; cbn; rewrite E; [reflexivity|exact IH].
Qed.

Lemma getitem_setitem_ne d k k' v :
  k <> k' -> getitem (setitem d k v) k' = getitem d k'.
Proof.
  intros Hne. induction d as [|[k0 v0] d IH]; cbn.
  - destruct (String.eqb k k') eqn:E; [|reflexivity].
    apply String.eqb_eq in E. congruence.
  - destruct (String.eqb k0 k) eqn:E; cbn.
    + apply String.eqb_eq in E as ->.
      destruct (String.eqb k k') eqn:E'; [|reflexivity].
      apply String.eqb_eq in E'. congruence.
    + now rewrite IH.
Qed.

Lemma getitem_None d k : getitem d k = None <-> k ∉ keys d.
Proof.
  induction d as [|[k' v'] d IH]; cbn.
  - split; [intros _; apply not_elem_of_nil|reflexivity].
  - rewrite not_elem_of_cons. destruct (String.eqb k' k) eqn:E.
    + apply String.eqb_eq in E as ->. split; [discriminate|]. now intros [].
    + apply String.eqb_neq in E. rewrite IH. intuition congruence.
Qed.

Lemma keys_setitem_old d k v : k ∈ keys d -> keys (setitem d k v) = keys d.
Proof.
  induction d as [|[k' v'] d IH]; cbn; intros Hin.
  - now apply elem_of_nil in Hin.
  - destruct (String.eqb k' k) eqn:E; [reflexivity|].
    apply String.eqb_neq in E. apply elem_of_cons in Hin as [->|Hin]; [congruence|].
    cbn. f_equal. now apply IH.
Qed.

Lemma keys_setitem_new d k v : k ∉ keys d -> keys (setitem d k v) = keys d ++ [k].
Proof.
  induction d as [|[k' v'] d IH]; cbn; intros Hin; [reflexivity|].
  apply not_elem_of_cons in Hin as [Hne Hin].
  destruct (String.eqb k' k) eqn:E.
  - apply String.eqb_eq in E. congruence.
  - cbn. f_equal. now apply IH.
Qed.

End DictFacts.

Lemma getitem_str_dict (d : pydict string) (k : string) :
  pyval_item (str_dict d) k = PyStr <$> getitem d k.
Proof.
  induction d as [|[k' v'] d IH]; cbn; [reflexivity|].
  destruct (String.eqb k' k); [reflexivity|exact IH].
Qed.

Section NodeLoopFacts.

Context (ext : externals).

Lemma node_loop_body_fold (l : list string) (P I : pydict string) (n : string) :
  getitem (fst (fold_left (node_loop_body ext) l (P, I))) n
    = (if decide (n ∈ l) then Some (node_plural ext n) else getitem P n)
  /\ getitem (snd (fold_left (node_loop_body ext) l (P, I))) n
    = (if decide (n ∈ l) then Some "id" else getitem I n)
  /\ (forall k, k ∈ keys (fst (fold_left (node_loop_body ext) l (P, I)))
                <-> k ∈ keys P \/ k ∈ l)
  /\ (forall k, k ∈ keys (snd (fold_left (node_loop_body ext) l (P, I)))
                <-> k ∈ keys I \/ k ∈ l).
Proof.
  revert P I. induction l as [|x l IH]; intros P I.
  - cbn [fold_left fst snd]. rewrite decide_False by apply not_elem_of_nil.
    repeat split; try tauto; intros [?|H]; try assumption;
      now apply elem_of_nil in H.
  - cbn [fold_left node_loop_body].
    destruct (IH (setitem P x (node_plural ext x)) (setitem I x "id"))
      as (Hp & Hi & Kp & Ki).
    rewrite Hp, Hi. clear Hp Hi.
    assert (Hk : forall (W : Type) (d : pydict W) (v : W) k,
               k ∈ keys (setitem d x v) <-> k ∈ keys d \/ k = x).
    { intros W d v k. destruct (decide (x ∈ keys d)) as [Hin|Hin].
      - rewrite keys_setitem_old by assumption. split; [tauto|].
        intros [?| ->]; assumption.
      - rewrite keys_setitem_new by assumption.
        rewrite elem_of_app, list_elem_of_singleton. tauto. }
    repeat split.
    + destruct (decide (n ∈ l)) as [Hin|Hin].
      * rewrite decide_True by (now right). reflexivity.
      * destruct (decide (n = x)) as [->|Hne].
        -- rewrite decide_True by (now left). apply getitem_setitem_eq.
        -- rewrite decide_False by (rewrite elem_of_cons; tauto).
           apply getitem_setitem_ne. congruence.
    + destruct (decide (n ∈ l)) as [Hin|Hin].
      * rewrite decide_True by (now right). reflexivity.
      * destruct (decide (n = x)) as [->|Hne].
        -- rewrite decide_True by (now left). apply getitem_setitem_eq.
        -- rewrite decide_False by (rewrite elem_of_cons; tauto).
           apply getitem_setitem_ne. congruence.
    + rewrite Kp, Hk, elem_of_cons. tauto.
    + rewrite Kp, Hk, elem_of_cons. tauto.
    + rewrite Ki, Hk, elem_of_cons. tauto.
    + rewrite Ki, Hk, elem_of_cons. tauto.
Qed.

Lemma node_loop_plural (node_list : list string) (node : string) :
  node ∈ node_list ->
  getitem (fst (node_loop ext node_list)) node = Some (node_plural ext node).
Proof.
  intros Hin. destruct (node_loop_body_fold node_list [] [] node) as (H & _).
  rewrite decide_True in H by assumption. exact H.
Qed.

Lemma node_loop_id (node_list : list string) (node : string) :
  node ∈ node_list ->
  getitem (snd (node_loop ext node_list)) node = Some "id".
Proof.
  intros Hin. destruct (node_loop_body_fold node_list [] [] node) as (_ & H & _).
  rewrite decide_True in H by assumption. exact H.
Qed.

Lemma node_loop_keys (node_list : list string) (k : string) :
  (k ∈ keys (fst (node_loop ext node_list)) <-> k ∈ node_list)
  /\ (k ∈ keys (snd (node_loop ext node_list)) <-> k ∈ node_list).
Proof.
  destruct (node_loop_body_fold node_list [] [] k) as (_ & _ & Kp & Ki).
  specialize (Kp k). specialize (Ki k). cbn [keys map] in Kp, Ki.
  assert (Hnil : k ∉ @nil string) by apply not_elem_of_nil.
  split; [etransitivity; [exact Kp|]|etransitivity; [exact Ki|]]; tauto.
Qed.

End NodeLoopFacts.

(** * Runs of the property derivation *)

Lemma bind_returned {A B} (c : M A) (k : A -> M B) (w w1 : world) (a : A) :
  c w = (Returned a, w1) -> bind c k w = k a w1.
Proof. unfold bind. now intros ->. Qed.

Section PropFileRunFacts.

Context (ext : externals).

Lemma create_prop_file_run (model_yaml delimiter domain_value content : string)
    (d nodes : pydict pyval) (w : world) :
  files w !! model_yaml = Some content ->
  yaml_safe_load ext content = Some (PyDict d) ->
  getitem d "Nodes" = Some (PyDict nodes) ->
  create_prop_file ext model_yaml delimiter domain_value w
  = (Returned "props_file.yaml",
     after_prop_file model_yaml
       (prop_file_text ext domain_value delimiter (keys nodes)) w).
Proof.
  intros Hfile Hload Hnodes.
  unfold create_prop_file, bind, read_file. rewrite Hfile, Hload.
  cbn [ret subscript keys_of files events]. rewrite Hnodes.
  cbn [ret subscript keys_of files events].
  unfold prop_file_text, prop_document, after_prop_file.
  destruct (node_loop ext (keys nodes)) as [plural_dict id_dict].
  cbn [fst snd write_file print log files events].
  rewrite lookup_insert_eq. cbn [files events].
  rewrite <- !app_assoc. reflexivity.
Qed.

Lemma subscript_world (doc : pyval) (key : string) (w : world) :
  snd (subscript doc key w) = w.
Proof. destruct doc; cbn; try reflexivity. now destruct (getitem d key). Qed.

Lemma keys_of_world (v : pyval) (w : world) : snd (keys_of v w) = w.
Proof. now destruct v. Qed.

(** Every run of [create_prop_file] either goes through as in
    [create_prop_file_run] or raises before anything is written. *)
Lemma create_prop_file_inv (model_yaml delimiter domain_value : string)
    (w w' : world) (out : outcome string) :
  create_prop_file ext model_yaml delimiter domain_value w = (out, w') ->
  (exists content d nodes,
      files w !! model_yaml = Some content
      /\ yaml_safe_load ext content = Some (PyDict d)
      /\ getitem d "Nodes" = Some (PyDict nodes)
      /\ out = Returned "props_file.yaml"
      /\ w' = after_prop_file model_yaml
                (prop_file_text ext domain_value delimiter (keys nodes)) w)
  \/ (exists e new,
        out = Raised e
        /\ prop_file_failure ext model_yaml (files w) e new
        /\ files w' = files w
        /\ added w w' new).
Proof.
  intros Hrun.
  destruct (files w !! model_yaml) as [content|] eqn:Hfile.
  2:{ right. unfold create_prop_file, bind, read_file in Hrun.
      rewrite Hfile in Hrun. inversion Hrun; subst.
      exists (FileNotFoundError model_yaml), [].
      split; [reflexivity|]. split; [now constructor|].
      split; [reflexivity|]. unfold added. now rewrite app_nil_r. }
  destruct (yaml_safe_load ext content) as [doc|] eqn:Hload.
  2:{ right. unfold create_prop_file, bind, read_file in Hrun.
      rewrite Hfile, Hload in Hrun. cbn in Hrun. inversion Hrun; subst.
      exists YAMLError, [FileRead model_yaml].
      split; [reflexivity|]. split; [eapply fail_parse; eassumption|].
      split; reflexivity. }
  set (w1 := {| files := files w; events := events w ++ [FileRead model_yaml] |}).
  destruct (subscript doc "Nodes" w1) as [[nodes|e] w2] eqn:Hsub.
  2:{ right. pose proof (subscript_world doc "Nodes" w1) as Hw.
      rewrite Hsub in Hw. cbn in Hw. subst w2.
      unfold create_prop_file, bind, read_file in Hrun.
      rewrite Hfile, Hload in Hrun. cbn [ret] in Hrun. fold w1 in Hrun.
      rewrite Hsub in Hrun. inversion Hrun; subst.
      exists e, [FileRead model_yaml].
      split; [reflexivity|]. split; [eapply fail_subscript; eassumption|].
      split; reflexivity. }
  pose proof (subscript_world doc "Nodes" w1) as Hw.
  rewrite Hsub in Hw. cbn in Hw. subst w2.
  destruct (keys_of nodes w1) as [[node_list|e] w2] eqn:Hkeys.
  2:{ right. pose proof (keys_of_world nodes w1) as Hw.
      rewrite Hkeys in Hw. cbn in Hw. subst w2.
      unfold create_prop_file, bind, read_file in Hrun.
      rewrite Hfile, Hload in Hrun. cbn [ret] in Hrun. fold w1 in Hrun.
      rewrite Hsub, Hkeys in Hrun. inversion Hrun; subst.
      exists e, [FileRead model_yaml].
      split; [reflexivity|]. split; [eapply fail_keys; eassumption|].
      split; reflexivity. }
  left. destruct doc as [| | | | |d]; try discriminate.
  cbn in Hsub. destruct (getitem d "Nodes") as [x|] eqn:Hnodes; [|discriminate].
  inversion Hsub; subst x. destruct nodes as [| | | | |nd]; try discriminate.
  exists content, d, nd.
  rewrite (create_prop_file_run _ _ _ _ _ _ _ Hfile Hload Hnodes) in Hrun.
  inversion Hrun; subst. repeat split; assumption || reflexivity.
Qed.

End PropFileRunFacts.

(** * Runs of the flow *)

Section FlowRunFacts.

Context (ext : externals).

Lemma emit_emit w a b : emit (emit w a) b = emit w (a ++ b).
Proof. unfold emit. cbn. now rewrite app_assoc. Qed.

Lemma print_run line w : print line w = (Returned tt, emit w [Printed line]).
Proof. reflexivity. Qed.

Lemma log_run ev w : log ev w = (Returned tt, emit w [ev]).
Proof. reflexivity. Qed.


Lemma get_secret_run secret_name w :
  get_secret ext secret_name w
  = (match secret_manager_get_secret ext secret_name with
     | inr secret => Returned secret
     | inl e => Raised e
     end, emit w [SecretFetched secret_name]).
Proof.
  unfold get_secret, bind. rewrite log_run.
  now destruct (secret_manager_get_secret ext secret_name).
Qed.

Lemma get_git_tag_run repo_path w :
  get_git_tag ext repo_path w
  = (tag_resolution ext repo_path,
     emit w ([Subprocess git_describe_cmd repo_path]
             ++ match tag_resolution ext repo_path with
                | Returned None => [Printed "No tag found for the current commit."]
                | _ => []
                end)).
Proof.
  unfold get_git_tag, tag_resolution, bind. rewrite log_run.
  fold git_describe_cmd.
  destruct (subprocess_check_output ext git_describe_cmd repo_path) as [e|raw];
    [destruct e|]; cbn [ret raise]; rewrite ?print_run, ?emit_emit; reflexivity.
Qed.

Lemma get_git_tag_outcome repo_path w :
  fst (get_git_tag ext repo_path w) = tag_resolution ext repo_path.
Proof. now rewrite get_git_tag_run. Qed.

Lemma main_run params w :
  main ext params w = (load_outcome ext params, emit w [LoaderInvoked params]).
Proof.
  unfold main, load_outcome, bind. rewrite log_run.
  now destruct (loader_main ext params).
Qed.

Lemma lookup_key_run secret key w :
  lookup_key secret key w
  = (match secret !! key with Some v => Returned v | None => Raised (KeyError key) end, w).
Proof. unfold lookup_key. now destruct (secret !! key). Qed.

Lemma flow_inv secret_name metadata_folder runner model_tag cheat_mode dry_run wipe_db mode split_transaction w out w' :
  c3dc_hub_data_loader ext secret_name metadata_folder runner model_tag cheat_mode dry_run wipe_db mode split_transaction w = (out, w') ->
  flow_run ext secret_name metadata_folder runner model_tag cheat_mode dry_run wipe_db mode split_transaction w out w'.
Proof.
  intros Hrun.
  unfold c3dc_hub_data_loader in Hrun.
  rewrite (bind_returned _ _ _ _ _ (print_run _ _)) in Hrun.
  unfold bind at 1 in Hrun. rewrite get_secret_run, emit_emit in Hrun.
  destruct (secret_manager_get_secret ext secret_name) as [e|secret] eqn:Hsec.
  { inversion Hrun; subst. eapply run_secret_error; [exact Hsec|reflexivity..]. }
  unfold bind at 1 in Hrun. rewrite lookup_key_run in Hrun.
  destruct (secret !! NEO4J_URI) as [uri|] eqn:Huri.
  2:{ inversion Hrun; subst. eapply run_secret_key; [exact Hsec| |reflexivity..].
      unfold secret_fields. now rewrite Huri. }
  unfold bind at 1 in Hrun. rewrite lookup_key_run in Hrun.
  destruct (secret !! NEO4J_PASSWORD) as [password|] eqn:Hpw.
  2:{ inversion Hrun; subst. eapply run_secret_key; [exact Hsec| |reflexivity..].
      unfold secret_fields. now rewrite Huri, Hpw. }
  unfold bind at 1 in Hrun. rewrite lookup_key_run in Hrun.
  destruct (secret !! SUBMISSION_BUCKET) as [s3_bucket|] eqn:Hbk.
  2:{ inversion Hrun; subst. eapply run_secret_key; [exact Hsec| |reflexivity..].
      unfold secret_fields. now rewrite Huri, Hpw, Hbk. }
  assert (Hfields : secret_fields secret = Some (uri, password, s3_bucket)).
  { unfold secret_fields. now rewrite Huri, Hpw, Hbk. }
  unfold bind at 1 in Hrun. rewrite get_git_tag_run, emit_emit in Hrun.
  fold model_repo in Hrun.
  destruct (tag_resolution ext model_repo) as [resolved|e] eqn:Htag.
  2:{ inversion Hrun; subst. eapply run_git_error; try eassumption; reflexivity. }
  rewrite (bind_returned _ _ _ _ _ (print_run _ _)), emit_emit in Hrun.
  rewrite (bind_returned _ _ _ _ _ (print_run _ _)), emit_emit in Hrun.
  unfold bind at 1 in Hrun.
  case_bool_decide as Heq.
  2:{ rewrite (bind_returned _ _ _ _ _ (print_run _ _)), emit_emit in Hrun.
      rewrite (bind_returned _ _ _ _ _ (print_run _ _)), emit_emit in Hrun.
      inversion Hrun; subst.
      eapply run_mismatch; try eassumption; [congruence|reflexivity|].
      unfold added, guard_events, mismatch_events. cbn [emit events].
      destruct resolved; cbn [app]; rewrite <- ?app_assoc; reflexivity. }
  subst resolved. rewrite print_run, emit_emit in Hrun.
  unfold bind at 1, get_time, ret in Hrun.
  unfold bind at 1 in Hrun.
  destruct (create_prop_file ext _ _ _ _) as [o w5] eqn:Hprop.
  apply create_prop_file_inv in Hprop.
  destruct Hprop as [(content & d & nodes & Hfile & Hload & Hnodes & -> & ->)
                    |(e & new & -> & Hfail & Hf & Hadd)].
  2:{ inversion Hrun; subst. eapply run_prop_failure; try eassumption.
      unfold added in *. rewrite Hadd. cbn [emit events app].
      rewrite <- !app_assoc. reflexivity. }
  rewrite (bind_returned _ _ _ _ _ (print_run _ _)) in Hrun.
  unfold load_data in Hrun.
  unfold bind at 1 in Hrun. unfold bind at 1 in Hrun.
  rewrite main_run in Hrun.
  fold model_schemas in Hrun.
  set (params := Config.init _ _ _ _ _ _ _ _ _ _ _ _ _ _ _ _ _ _ _ _ _ _) in Hrun.
  set (text := prop_file_text ext _ _ _) in Hrun.
  assert (Hout : out = load_outcome ext params
                 /\ files w' = <["props_file.yaml" := text]> (files w)
                 /\ added w w' (guard_events secret_name model_tag (Some model_tag)
                                ++ [match_event] ++ prop_file_events text
                                ++ load_events ext params)).
  { unfold load_events, load_outcome in *.
    destruct (loader_main ext params) as [e|] eqn:Hl.
    - inversion Hrun; subst out w'. split; [reflexivity|]. split; [reflexivity|].
      unfold added, guard_events, prop_file_events. cbn [emit after_prop_file events app nth model_schemas].
      rewrite <- !app_assoc. reflexivity.
    - cbv beta iota in Hrun. unfold bind, print, log, ret in Hrun.
      inversion Hrun; subst out w'. split; [reflexivity|]. split; [reflexivity|].
      unfold added, guard_events, prop_file_events. cbn [emit after_prop_file events app nth model_schemas].
      rewrite <- !app_assoc. reflexivity. }
  destruct Hout as (-> & Hf & Ha).
  eapply run_loaded; eassumption.
Qed.
End FlowRunFacts.

(** * The document a derivation persists *)

Section PropDocumentFacts.

Context (ext : externals).

(** A derivation that returns has read a model with a ["Nodes"] mapping and
    left the dump of [prop_document] in [props_file.yaml]. *)
Lemma create_prop_file_returned (model_yaml delimiter domain_value : string)
    (w w' : world) (path : string) :
  create_prop_file ext model_yaml delimiter domain_value w = (Returned path, w') ->
  exists content d nodes,
    files w !! model_yaml = Some content
    /\ yaml_safe_load ext content = Some (PyDict d)
    /\ getitem d "Nodes" = Some (PyDict nodes)
    /\ path = "props_file.yaml"
    /\ w' = after_prop_file model_yaml
              (prop_file_text ext domain_value delimiter (keys nodes)) w
    /\ files w' !! "props_file.yaml"
       = Some (yaml_dump ext
                 (prop_document ext domain_value delimiter (keys nodes)) false).
Proof.
  intros Hrun. apply create_prop_file_inv in Hrun.
  destruct Hrun as [(content & d & nodes & Hf & Hl & Hn & Hout & ->)
                   |(e & new & Hout & _)]; [|discriminate].
  exists content, d, nodes. repeat split; try assumption.
  - now inversion Hout.
  - cbn [after_prop_file files]. now rewrite lookup_insert_eq.
Qed.

Lemma prop_document_shape (domain_value delimiter : string)
    (node_list : list string) :
  prop_document ext domain_value delimiter node_list
  = PyDict
      [("Properties",
        PyDict
          [("domain_value", PyStr domain_value);
           ("rel_prop_delimiter", PyStr "$");
           ("delimiter", PyStr delimiter);
           ("plurals", str_dict (fst (node_loop ext node_list)));
           ("type_mapping", PyDict type_mapping);
           ("id_fields", str_dict (snd (node_loop ext node_list)))])].
Proof. reflexivity. Qed.

Lemma prop_document_id_fields (node_list : list string) (node : string) :
  pyval_item (str_dict (snd (node_loop ext node_list))) node
  = (if decide (node ∈ node_list) then Some (PyStr "id") else None).
Proof.
  rewrite getitem_str_dict.
  destruct (decide (node ∈ node_list)) as [Hin|Hin].
  - now rewrite node_loop_id.
  - assert (H : getitem (snd (node_loop ext node_list)) node = None).
    { apply getitem_None. now rewrite (proj2 (node_loop_keys ext _ _)). }
    now rewrite H.
Qed.

Lemma prop_document_plurals (node_list : list string) (node : string) :
  pyval_item (str_dict (fst (node_loop ext node_list))) node
  = (if decide (node ∈ node_list) then Some (PyStr (node_plural ext node))
     else None).
Proof.
  rewrite getitem_str_dict.
  destruct (decide (node ∈ node_list)) as [Hin|Hin].
  - now rewrite node_loop_plural.
  - assert (H : getitem (fst (node_loop ext node_list)) node = None).
    { apply getitem_None. now rewrite (proj1 (node_loop_keys ext _ _)). }
    now rewrite H.
Qed.

End PropDocumentFacts.

Lemma sample_derivation :
  create_prop_file Sample.ext Sample.model_path ";" "example.org"
    Sample.good_world
  = (Returned "props_file.yaml",
     after_prop_file Sample.model_path "Properties: {}" Sample.good_world).
Proof. reflexivity. Qed.

(** * Properties of the property derivation *)

(** C2. The plural recorded for a node name.  A name that contains ["_"]
    is [prefix + "_" + last_word] with no ["_"] in [last_word]; [split]
    gives the segments of [prefix] followed by [last_word], and the plural
    is those segments joined with ["_"] after only [last_word] was replaced
    by its plural, that is [prefix + "_" + plural(last_word)].  A name
    without ["_"] is pluralized whole.  This is the entry the loop stores in
    [plural_dict]. *)
Theorem plural_of_node_name (ext : externals) (node : string) :
  (forall prefix last_word,
     node = prefix +:+ "_" +:+ last_word ->
     str_in "_" last_word = false ->
     str_in "_" node = true
     /\ split "_" node = split "_" prefix ++ [last_word]
     /\ node_plural ext node
        = join "_" (split "_" prefix ++ [inflect_plural ext last_word])
     /\ node_plural ext node = prefix +:+ "_" +:+ inflect_plural ext last_word)
  /\ (str_in "_" node = true ->
      exists prefix last_word,
        node = prefix +:+ "_" +:+ last_word /\ str_in "_" last_word = false)
  /\ (str_in "_" node = false -> node_plural ext node = inflect_plural ext node)
  /\ (forall node_list, node ∈ node_list ->
        getitem (fst (node_loop ext node_list)) node
        = Some (node_plural ext node)).
Proof.
  split; [|split; [|split]].
  - intros prefix w Hnode Hw.
    change (node = prefix +:+ String "_" w) in Hnode. subst node.
    change ("_" +:+ inflect_plural ext w)
      with (String "_" (inflect_plural ext w)).
    assert (Hin : str_in "_" (prefix +:+ String "_" w) = true)
      by apply str_in_char_app.
    assert (Hsplit : split "_" (prefix +:+ String "_" w) = split "_" prefix ++ [w])
      by now apply split_app_last.
    assert (Hplural : node_plural ext (prefix +:+ String "_" w)
                      = join "_" (split "_" prefix ++ [inflect_plural ext w])).
    { unfold node_plural. rewrite Hin, Hsplit.
      now rewrite last_item_snoc, but_last_snoc. }
    repeat split; try assumption.
    rewrite Hplural, join_snoc by apply split_not_nil.
    now rewrite join_split.
  - intros Hin. destruct (str_in_char_last _ _ Hin) as (prefix & w & -> & Hw).
    now exists prefix, w.
  - intros Hno. unfold node_plural. now rewrite Hno.
  - intros node_list. apply node_loop_plural.
Qed.

Lemma plural_of_node_name_witness :
  node_plural Sample.ext "study_arm" = "study" +:+ "_" +:+ "arms"
  /\ node_plural Sample.ext "diagnosis" = "diagnoses"
  /\ getitem (fst (node_loop Sample.ext ["diagnosis"; "study_arm"])) "study_arm"
     = Some "study_arms".
Proof.
  destruct (plural_of_node_name Sample.ext "study_arm") as (Hsep & _ & _ & Hloop).
  destruct (plural_of_node_name Sample.ext "diagnosis") as (_ & _ & Hwhole & _).
  split; [|split].
  - exact (proj2 (proj2 (proj2 (Hsep "study" "arm" eq_refl eq_refl)))).
  - exact (Hwhole eq_refl).
  - rewrite (Hloop ["diagnosis"; "study_arm"]); [reflexivity|].
    apply elem_of_cons. right. apply elem_of_cons. now left.
Defined.

(** The examples of the specification, with [Sample.plural] for the
    pluralizer. *)
Example plural_data_file : node_plural Sample.ext "data_file" = "data_files".
Proof. reflexivity. Qed.

Example plural_study_subject :
  node_plural Sample.ext "study_subject" = "study_subjects".
Proof. reflexivity. Qed.

Example plural_patient : node_plural Sample.ext "patient" = "patients".
Proof. reflexivity. Qed.

Example end_to_end_document :
  prop_document Sample.ext "example.org" ";" ["diagnosis"; "study_arm"]
  = PyDict
      [("Properties",
        PyDict
          [("domain_value", PyStr "example.org");
           ("rel_prop_delimiter", PyStr "$");
           ("delimiter", PyStr ";");
           ("plurals", PyDict [("diagnosis", PyStr "diagnoses");
                               ("study_arm", PyStr "study_arms")]);
           ("type_mapping", PyDict type_mapping);
           ("id_fields", PyDict [("diagnosis", PyStr "id");
                                 ("study_arm", PyStr "id")])])].
Proof. reflexivity. Qed.

(** C4. After every derivation that returns, the document left in the
    property file has, under [Properties.id_fields], the string ["id"] for
    every node name among the keys of the model's ["Nodes"], whatever the
    node's definition holds, and no other key. *)
Theorem id_fields_fixed (ext : externals)
    (model_yaml delimiter domain_value : string) (w w' : world) (path : string) :
  create_prop_file ext model_yaml delimiter domain_value w = (Returned path, w') ->
  exists content d nodes doc properties id_fields,
    files w !! model_yaml = Some content
    /\ yaml_safe_load ext content = Some (PyDict d)
    /\ getitem d "Nodes" = Some (PyDict nodes)
    /\ files w' !! "props_file.yaml" = Some (yaml_dump ext doc false)
    /\ pyval_item doc "Properties" = Some properties
    /\ pyval_item properties "id_fields" = Some id_fields
    /\ forall node,
         pyval_item id_fields node
         = (if decide (node ∈ keys nodes) then Some (PyStr "id") else None).
Proof.
  intros Hrun.
  destruct (create_prop_file_returned _ _ _ _ _ _ _ Hrun)
    as (content & d & nodes & Hf & Hl & Hn & _ & _ & Hdoc).
  exists content, d, nodes. eexists _, _, _.
  do 3 (split; [eassumption|]). split; [exact Hdoc|].
  rewrite prop_document_shape.
  split; [reflexivity|]. split; [reflexivity|].
  apply prop_document_id_fields.
Qed.

Lemma id_fields_fixed_witness :
  exists content d nodes doc properties id_fields,
    files Sample.good_world !! Sample.model_path = Some content
    /\ yaml_safe_load Sample.ext content = Some (PyDict d)
    /\ getitem d "Nodes" = Some (PyDict nodes)
    /\ files (after_prop_file Sample.model_path "Properties: {}"
                Sample.good_world) !! "props_file.yaml"
       = Some (yaml_dump Sample.ext doc false)
    /\ pyval_item doc "Properties" = Some properties
    /\ pyval_item properties "id_fields" = Some id_fields
    /\ forall node,
         pyval_item id_fields node
         = (if decide (node ∈ keys nodes) then Some (PyStr "id") else None).
Proof.
  exact (id_fields_fixed Sample.ext Sample.model_path ";" "example.org"
           Sample.good_world _ _ sample_derivation).
Defined.

(** C3, as the claim states it, fails: the table has no entry for the tag
    ["unknown"] (its ninth key is ["TBD"]), and a tag outside the table gets
    no default. *)
Lemma type_mapping_has_no_unknown_tag :
  ~ (exists native, getitem type_mapping "unknown" = Some native).
Proof. intros [native H]. discriminate H. Qed.

(** C3, amended. After every derivation that returns, the [type_mapping] of
    the persisted document is one constant table, the same for every model:
    it maps string, number, integer, boolean, array, object, datetime and
    date to String, Float, Int, Boolean, Array, Object, DateTime and Date,
    and the placeholder tag TBD to String; no other tag has an entry. *)
Theorem type_mapping_fixed_table (ext : externals)
    (model_yaml delimiter domain_value : string) (w w' : world) (path : string) :
  create_prop_file ext model_yaml delimiter domain_value w = (Returned path, w') ->
  exists doc properties,
    files w' !! "props_file.yaml" = Some (yaml_dump ext doc false)
    /\ pyval_item doc "Properties" = Some properties
    /\ pyval_item properties "type_mapping"
       = Some (PyDict [("string", PyStr "String");
                       ("number", PyStr "Float");
                       ("integer", PyStr "Int");
                       ("boolean", PyStr "Boolean");
                       ("array", PyStr "Array");
                       ("object", PyStr "Object");
                       ("datetime", PyStr "DateTime");
                       ("date", PyStr "Date");
                       ("TBD", PyStr "String")])
    /\ forall tag,
         getitem type_mapping tag = None
         <-> tag ∉ ["string"; "number"; "integer"; "boolean"; "array";
                    "object"; "datetime"; "date"; "TBD"].
Proof.
  intros Hrun.
  destruct (create_prop_file_returned _ _ _ _ _ _ _ Hrun)
    as (content & d & nodes & _ & _ & _ & _ & _ & Hdoc).
  eexists _, _. split; [exact Hdoc|]. rewrite prop_document_shape.
  split; [reflexivity|]. split; [reflexivity|].
  intros tag. apply getitem_None.
Qed.

Lemma type_mapping_fixed_table_witness :
  exists doc properties,
    files (after_prop_file Sample.model_path "Properties: {}" Sample.good_world)
      !! "props_file.yaml" = Some (yaml_dump Sample.ext doc false)
    /\ pyval_item doc "Properties" = Some properties
    /\ pyval_item properties "type_mapping"
       = Some (PyDict [("string", PyStr "String");
                       ("number", PyStr "Float");
                       ("integer", PyStr "Int");
                       ("boolean", PyStr "Boolean");
                       ("array", PyStr "Array");
                       ("object", PyStr "Object");
                       ("datetime", PyStr "DateTime");
                       ("date", PyStr "Date");
                       ("TBD", PyStr "String")])
    /\ forall tag,
         getitem type_mapping tag = None
         <-> tag ∉ ["string"; "number"; "integer"; "boolean"; "array";
                    "object"; "datetime"; "date"; "TBD"].
Proof.
  exact (type_mapping_fixed_table Sample.ext Sample.model_path ";"
           "example.org" Sample.good_world _ _ sample_derivation).
Defined.

(** C10. After every derivation that returns, the document dumped into the
    property file (with [sort_keys=False]) has the one top-level key
    ["Properties"], whose keys are, in this order, domain_value,
    rel_prop_delimiter, delimiter, plurals, type_mapping and id_fields. *)
Theorem property_document_key_order (ext : externals)
    (model_yaml delimiter domain_value : string) (w w' : world) (path : string) :
  create_prop_file ext model_yaml delimiter domain_value w = (Returned path, w') ->
  exists properties,
    files w' !! "props_file.yaml"
    = Some (yaml_dump ext (PyDict [("Properties", PyDict properties)]) false)
    /\ keys properties
       = ["domain_value"; "rel_prop_delimiter"; "delimiter"; "plurals";
          "type_mapping"; "id_fields"]
    /\ getitem properties "domain_value" = Some (PyStr domain_value)
    /\ getitem properties "rel_prop_delimiter" = Some (PyStr "$")
    /\ getitem properties "delimiter" = Some (PyStr delimiter).
Proof.
  intros Hrun.
  destruct (create_prop_file_returned _ _ _ _ _ _ _ Hrun)
    as (content & d & nodes & _ & _ & _ & _ & _ & Hdoc).
  rewrite prop_document_shape in Hdoc.
  eexists. split; [exact Hdoc|]. repeat split.
Qed.

Lemma property_document_key_order_witness :
  exists properties,
    files (after_prop_file Sample.model_path "Properties: {}" Sample.good_world)
      !! "props_file.yaml"
    = Some (yaml_dump Sample.ext (PyDict [("Properties", PyDict properties)])
              false)
    /\ keys properties
       = ["domain_value"; "rel_prop_delimiter"; "delimiter"; "plurals";
          "type_mapping"; "id_fields"]
    /\ getitem properties "domain_value" = Some (PyStr "example.org")
    /\ getitem properties "rel_prop_delimiter" = Some (PyStr "$")
    /\ getitem properties "delimiter" = Some (PyStr ";").
Proof.
  exact (property_document_key_order Sample.ext Sample.model_path ";"
           "example.org" Sample.good_world _ _ sample_derivation).
Defined.

(** C5, as the claim states it, fails: no argument of [create_prop_file]
    selects the output path.  Whatever the caller passes, a run never
    returns, and never writes to, a path other than [props_file.yaml]. *)
Lemma output_path_not_overridable :
  ~ (exists ext model_yaml delimiter domain_value w out w' new path,
        create_prop_file ext model_yaml delimiter domain_value w = (out, w')
        /\ added w w' new
        /\ path <> "props_file.yaml"
        /\ (out = Returned path \/ exists text, FileWritten path text ∈ new)).
Proof.
  intros (ext & model_yaml & delimiter & domain_value & w & out & w' & new
          & path & Hrun & Hadd & Hne & Hpath).
  apply create_prop_file_inv in Hrun.
  destruct Hrun as [(content & d & nodes & _ & _ & _ & -> & ->)
                   |(e & new' & -> & Hfail & _ & Hadd')].
  - unfold added in Hadd. cbn [after_prop_file events] in Hadd.
    apply app_inv_head in Hadd. subst new.
    destruct Hpath as [Hret|[text Hin]].
    + inversion Hret. congruence.
    + repeat (apply elem_of_cons in Hin as [Hin|Hin]; [inversion Hin; congruence|]).
      now apply elem_of_nil in Hin.
  - unfold added in *. rewrite Hadd in Hadd'. apply app_inv_head in Hadd'.
    subst new'. destruct Hpath as [Hret|[text Hin]]; [discriminate|].
    inversion Hfail; subst;
      repeat (apply elem_of_cons in Hin as [Hin|Hin]; [discriminate|]);
      now apply elem_of_nil in Hin.
Qed.

(** C5, amended. A derivation that returns has written the document to the
    fixed path [props_file.yaml], which no argument changes, replacing any
    file that was there and leaving every other file as it was; that write
    is its only one, and the path it returns is that path. *)
Theorem prop_file_written_and_returned (ext : externals)
    (model_yaml delimiter domain_value : string) (w w' : world) (path : string) :
  create_prop_file ext model_yaml delimiter domain_value w = (Returned path, w') ->
  path = "props_file.yaml"
  /\ exists text new,
       files w' = <[path := text]> (files w)
       /\ files w' !! path = Some text
       /\ (forall other, other <> path -> files w' !! other = files w !! other)
       /\ added w w' new
       /\ filter (fun ev => is_file_write ev = true) new
          = [FileWritten path text].
Proof.
  intros Hrun.
  destruct (create_prop_file_returned _ _ _ _ _ _ _ Hrun)
    as (content & d & nodes & _ & _ & _ & -> & -> & _).
  split; [reflexivity|]. eexists _, _. cbn [after_prop_file files events].
  split; [reflexivity|]. split; [apply lookup_insert_eq|].
  split; [intros other Hne; now apply lookup_insert_ne|].
  split; reflexivity.
Qed.

Lemma prop_file_written_and_returned_witness :
  "props_file.yaml" = "props_file.yaml"
  /\ exists text new,
       files (after_prop_file Sample.model_path "Properties: {}"
                Sample.good_world)
       = <["props_file.yaml" := text]> (files Sample.good_world)
       /\ files (after_prop_file Sample.model_path "Properties: {}"
                   Sample.good_world) !! "props_file.yaml" = Some text
       /\ (forall other, other <> "props_file.yaml" ->
             files (after_prop_file Sample.model_path "Properties: {}"
                      Sample.good_world) !! other
             = files Sample.good_world !! other)
       /\ added Sample.good_world
            (after_prop_file Sample.model_path "Properties: {}"
               Sample.good_world) new
       /\ filter (fun ev => is_file_write ev = true) new
          = [FileWritten "props_file.yaml" text].
Proof.
  exact (prop_file_written_and_returned Sample.ext Sample.model_path ";"
           "example.org" Sample.good_world _ _ sample_derivation).
Defined.

(** C9. When the text of the model file does not parse, the derivation
    raises the parser's error ([yaml.YAMLError]); when it parses to a
    mapping without the key ["Nodes"], the derivation raises
    [KeyError("Nodes")].  Whenever a derivation raises, for these or any
    other reason, it has written no file. *)
Theorem derivation_failures_write_nothing (ext : externals)
    (model_yaml delimiter domain_value content : string) (w : world) :
  files w !! model_yaml = Some content ->
  (yaml_safe_load ext content = None ->
   create_prop_file ext model_yaml delimiter domain_value w
   = (Raised YAMLError, emit w [FileRead model_yaml]))
  /\ (forall d, yaml_safe_load ext content = Some (PyDict d) ->
        getitem d "Nodes" = None ->
        create_prop_file ext model_yaml delimiter domain_value w
        = (Raised (KeyError "Nodes"), emit w [FileRead model_yaml]))
  /\ (forall e w',
        create_prop_file ext model_yaml delimiter domain_value w
        = (Raised e, w') ->
        files w' = files w
        /\ exists new, added w w' new
                       /\ Forall (fun ev => is_file_write ev = false) new).
Proof.
  intros Hfile. split; [|split].
  - intros Hload. unfold create_prop_file, bind, read_file.
    now rewrite Hfile, Hload.
  - intros d Hload Hnodes. unfold create_prop_file, bind, read_file.
    rewrite Hfile, Hload. cbn [ret subscript]. now rewrite Hnodes.
  - intros e w' Hrun. apply create_prop_file_inv in Hrun.
    destruct Hrun as [(? & ? & ? & _ & _ & _ & Hout & _)
                     |(e' & new & _ & Hfail & Hf & Hadd)]; [discriminate|].
    split; [exact Hf|]. exists new. split; [exact Hadd|].
    inversion Hfail; subst; repeat constructor.
Qed.

Lemma derivation_failures_write_nothing_witness :
  create_prop_file Sample.ext Sample.model_path ";" "example.org"
    (Sample.world_with ": :")
  = (Raised YAMLError,
     emit (Sample.world_with ": :") [FileRead Sample.model_path])
  /\ create_prop_file Sample.ext Sample.model_path ";" "example.org"
       (Sample.world_with "Relationships: {}")
     = (Raised (KeyError "Nodes"),
        emit (Sample.world_with "Relationships: {}")
          [FileRead Sample.model_path]).
Proof.
  split.
  - exact (proj1 (derivation_failures_write_nothing Sample.ext
                    Sample.model_path ";" "example.org" ": :"
                    (Sample.world_with ": :") eq_refl) eq_refl).
  - exact (proj1 (proj2 (derivation_failures_write_nothing Sample.ext
                           Sample.model_path ";" "example.org"
                           "Relationships: {}"
                           (Sample.world_with "Relationships: {}") eq_refl))
             _ eq_refl eq_refl).
Defined.

(** * Properties of the flow *)

Section FlowFacts.

Context (ext : externals)
        (secret_name metadata_folder runner model_tag : string)
        (cheat_mode dry_run wipe_db : bool) (mode : string)
        (split_transaction : bool).

Lemma secret_fields_lookup (secret : gmap string string)
    (uri password s3_bucket : string) :
  secret_fields secret = Some (uri, password, s3_bucket) ->
  secret !! NEO4J_URI = Some uri
  /\ secret !! NEO4J_PASSWORD = Some password
  /\ secret !! SUBMISSION_BUCKET = Some s3_bucket.
Proof.
  unfold secret_fields.
  destruct (secret !! NEO4J_URI), (secret !! NEO4J_PASSWORD),
    (secret !! SUBMISSION_BUCKET); intros H; inversion H; auto.
Qed.

Lemma guard_events_harmless (resolved : option string) :
  Forall harmless (guard_events secret_name model_tag resolved).
Proof. destruct resolved; repeat constructor. Qed.

Lemma mismatch_events_harmless (resolved : option string) :
  Forall harmless (mismatch_events model_tag resolved).
Proof. repeat constructor. Qed.

Lemma prop_file_failure_harmless (model_yaml : string)
    (fs : gmap string string) (e : exn) (new : list event) :
  prop_file_failure ext model_yaml fs e new -> Forall harmless new.
Proof. intros H. inversion H; subst; repeat constructor. Qed.

Lemma not_loader_call_harmless (l : list event) (params : Config.t) :
  Forall harmless l -> LoaderInvoked params ∉ l.
Proof.
  intros Hall Hin. rewrite Forall_forall in Hall.
  destruct (Hall _ Hin) as [_ H]. discriminate H.
Qed.

(** The loader is called only in a run that got past the comparison and the
    derivation, and then with [run_params]. *)
Lemma flow_run_loader_call (w w' : world) (out : outcome unit)
    (new : list event) (params : Config.t) :
  flow_run ext secret_name metadata_folder runner model_tag cheat_mode dry_run
    wipe_db mode split_transaction w out w' ->
  added w w' new ->
  LoaderInvoked params ∈ new ->
  exists secret uri password s3_bucket,
    secret_manager_get_secret ext secret_name = inr secret
    /\ secret_fields secret = Some (uri, password, s3_bucket)
    /\ tag_resolution ext model_repo = Returned (Some model_tag)
    /\ params = run_params ext metadata_folder runner cheat_mode dry_run
                  wipe_db mode split_transaction uri password s3_bucket.
Proof.
  intros Hrun Hadd Hin. unfold added in Hadd.
  assert (Hno : forall l, events w' = events w ++ l -> Forall harmless l -> False).
  { intros l Hl Hall. rewrite Hl in Hadd. apply app_inv_head in Hadd. subst l.
    now apply (not_loader_call_harmless new params). }
  inversion Hrun; subst; unfold added in *.
  - exfalso. eapply Hno; [eassumption|repeat constructor].
  - exfalso. eapply Hno; [eassumption|repeat constructor].
  - exfalso. eapply Hno; [eassumption|repeat constructor].
  - exfalso. eapply Hno; [eassumption|].
    apply Forall_app. split;
      [apply guard_events_harmless|apply mismatch_events_harmless].
  - exfalso. eapply Hno; [eassumption|].
    apply Forall_app. split; [apply guard_events_harmless|].
    apply Forall_cons. split; [repeat constructor|].
    eapply prop_file_failure_harmless; eassumption.
  - match goal with H : events w' = _ |- _ => rewrite H in Hadd end.
    apply app_inv_head in Hadd. subst new.
    exists secret, uri, password, s3_bucket.
    do 3 (split; [assumption|]).
    apply elem_of_app in Hin as [Hin|Hin].
    { now apply not_loader_call_harmless in Hin;
        [|apply guard_events_harmless]. }
    apply elem_of_cons in Hin as [Hin|Hin]; [discriminate|].
    apply elem_of_app in Hin as [Hin|Hin].
    { repeat (apply elem_of_cons in Hin as [Hin|Hin]; [discriminate|]).
      now apply elem_of_nil in Hin. }
    unfold load_events in Hin.
    apply elem_of_app in Hin as [Hin|Hin].
    + apply elem_of_cons in Hin as [Hin|Hin]; [discriminate|].
      apply elem_of_cons in Hin as [Hin|Hin]; [now inversion Hin|].
      now apply elem_of_nil in Hin.
    + destruct (loader_main ext _).
      * now apply elem_of_nil in Hin.
      * apply elem_of_cons in Hin as [Hin|Hin]; [discriminate|].
        now apply elem_of_nil in Hin.
Qed.

End FlowFacts.

(** C1. Let [resolved] be what [get_git_tag] returns for the model
    repository: [None] when the commit has no exact tag, else the tag.  If
    [resolved] is not the expected [model_tag], the run raises, no file is
    changed, and nothing it did wrote a file or called the loader; once the
    secret was read it raises the mismatch [ValueError].  If [resolved] is
    [model_tag] and the secret was read, the run prints that the tags agree
    and goes on: with a model file that loads and has a ["Nodes"] mapping it
    writes the property file and calls the loader. *)
Theorem version_guard (ext : externals)
    (secret_name metadata_folder runner model_tag : string)
    (cheat_mode dry_run wipe_db : bool) (mode : string)
    (split_transaction : bool) (w w' : world) (out : outcome unit)
    (resolved : option string) :
  c3dc_hub_data_loader ext secret_name metadata_folder runner model_tag
    cheat_mode dry_run wipe_db mode split_transaction w = (out, w') ->
  fst (get_git_tag ext "../c3dc-model/" w) = Returned resolved ->
  (resolved <> Some model_tag ->
   (exists e, out = Raised e)
   /\ files w' = files w
   /\ (exists new, added w w' new /\ Forall harmless new)
   /\ (forall secret fields,
         secret_manager_get_secret ext secret_name = inr secret ->
         secret_fields secret = Some fields ->
         out = Raised (ValueError mismatch_message)))
  /\ (resolved = Some model_tag ->
      forall secret fields,
        secret_manager_get_secret ext secret_name = inr secret ->
        secret_fields secret = Some fields ->
        exists new,
          added w w' new
          /\ match_event ∈ new
          /\ forall content d nodes,
               files w !! "../c3dc-model/model-desc/c3dc-model.yml"
               = Some content ->
               yaml_safe_load ext content = Some (PyDict d) ->
               getitem d "Nodes" = Some (PyDict nodes) ->
               exists text params,
                 FileWritten "props_file.yaml" text ∈ new
                 /\ LoaderInvoked params ∈ new
                 /\ files w' !! "props_file.yaml" = Some text).
Proof.
  intros Hrun Htag. rewrite get_git_tag_outcome in Htag.
  apply flow_inv in Hrun. fold model_repo in Htag. split.
  - intros Hne.
    inversion Hrun; subst;
      try match goal with
          | H : tag_resolution ext model_repo = _ |- _ =>
              rewrite Htag in H; inversion H; subst
          end;
      try congruence.
    + split; [eauto|]. split; [assumption|]. split.
      * eexists. split; [eassumption|repeat constructor].
      * intros secret fields Hs _. congruence.
    + split; [eauto|]. split; [assumption|]. split.
      * eexists. split; [eassumption|repeat constructor].
      * intros secret' fields Hs Hf. congruence.
    + split; [eauto|]. split; [assumption|]. split.
      * eexists. split; [eassumption|].
        apply Forall_app. split;
          [apply guard_events_harmless|apply mismatch_events_harmless].
      * reflexivity.
  - intros -> secret fields Hsec Hfields.
    inversion Hrun; subst;
      try match goal with
          | H : tag_resolution ext model_repo = _ |- _ =>
              rewrite Htag in H; inversion H; subst
          end;
      try congruence.
    + eexists. split; [eassumption|]. split.
      * apply elem_of_app. right. now left.
      * intros content d nodes Hf Hl Hn.
        match goal with H : prop_file_failure _ _ _ _ _ |- _ => inversion H; subst end;
          try congruence.
        -- match goal with
           | H1 : files w !! _ = Some ?c, H2 : yaml_safe_load ext ?c = Some ?doc
             |- _ => rewrite Hf in H1; inversion H1; subst;
                     rewrite Hl in H2; inversion H2; subst
           end.
           cbn in *. rewrite Hn in *. discriminate.
        -- match goal with
           | H1 : files w !! _ = Some ?c, H2 : yaml_safe_load ext ?c = Some ?doc
             |- _ => rewrite Hf in H1; inversion H1; subst;
                     rewrite Hl in H2; inversion H2; subst
           end.
           cbn in *. rewrite Hn in *.
           match goal with H : ret _ _ = (Returned _, _) |- _ => inversion H; subst end.
           discriminate.
    + eexists. split; [eassumption|]. split.
      * apply elem_of_app. right. now left.
      * intros content' d' nodes' _ _ _. eexists _, _.
        split; [|split].
        -- apply elem_of_app. right. right. apply elem_of_app. left.
           right. now left.
        -- apply elem_of_app. right. right. apply elem_of_app. right.
           unfold load_events. apply elem_of_app. left. right. now left.
        -- match goal with H : files w' = _ |- _ => rewrite H end.
           apply lookup_insert_eq.
Qed.

Lemma version_guard_witness :
  fst (Sample.run "batch1" "me" "v2.2.9") = Raised (ValueError mismatch_message)
  /\ files (snd (Sample.run "batch1" "me" "v2.2.9")) = files Sample.good_world
  /\ fst (c3dc_hub_data_loader Sample.ext_untagged "c3dc/dev" "batch1" "me"
            "v2.3.0" false true false "upsert" true Sample.good_world)
     = Raised (ValueError mismatch_message)
  /\ exists new text params,
       added Sample.good_world (snd (Sample.run "batch1" "me" "v2.3.0")) new
       /\ FileWritten "props_file.yaml" text ∈ new
       /\ LoaderInvoked params ∈ new.
Proof.
  destruct (version_guard Sample.ext "c3dc/dev" "batch1" "me" "v2.2.9"
              false true false "upsert" true Sample.good_world _ _
              (Some "v2.3.0") (surjective_pairing _) eq_refl) as [Hmis _].
  destruct (Hmis ltac:(discriminate)) as (_ & Hfiles & _ & Herr).
  destruct (version_guard Sample.ext_untagged "c3dc/dev" "batch1" "me" "v2.3.0"
              false true false "upsert" true Sample.good_world _ _
              None (surjective_pairing _) eq_refl) as [Hnone _].
  destruct (Hnone ltac:(discriminate)) as (_ & _ & _ & Herr').
  destruct (version_guard Sample.ext "c3dc/dev" "batch1" "me" "v2.3.0"
              false true false "upsert" true Sample.good_world _ _
              (Some "v2.3.0") (surjective_pairing _) eq_refl) as [_ Hok].
  destruct (Hok eq_refl Sample.secret _ eq_refl eq_refl)
    as (new & Hadd & _ & Hgo).
  destruct (Hgo _ _ _ eq_refl eq_refl eq_refl) as (text & params & Hw & Hl & _).
  split; [exact (Herr _ _ eq_refl eq_refl)|]. split; [exact Hfiles|].
  split; [exact (Herr' Sample.secret _ eq_refl eq_refl)|].
  exists new, text, params. auto.
Defined.

Lemma sample_run_events :
  added Sample.good_world (snd (Sample.run "batch1" "me/" "v2.3.0"))
    (guard_events "c3dc/dev" "v2.3.0" (Some "v2.3.0") ++ [match_event]
     ++ prop_file_events "Properties: {}"
     ++ load_events Sample.ext
          (run_params Sample.ext "batch1" "me/" false true false "upsert" true
             "bolt://db:7687" "pw" "bkt")).
Proof. reflexivity. Qed.

Lemma sample_run_loader_call :
  LoaderInvoked
    (run_params Sample.ext "batch1" "me/" false true false "upsert" true
       "bolt://db:7687" "pw" "bkt")
  ∈ guard_events "c3dc/dev" "v2.3.0" (Some "v2.3.0") ++ [match_event]
    ++ prop_file_events "Properties: {}"
    ++ load_events Sample.ext
         (run_params Sample.ext "batch1" "me/" false true false "upsert" true
            "bolt://db:7687" "pw" "bkt").
Proof.
  apply elem_of_app. right. right. apply elem_of_app. right.
  right. now left.
Qed.




(** ** Folder inputs and the log destination *)

Lemma normalize_metadata_folder_slash (folder : string) :
  endswith folder "/" = false ->
  normalize_metadata_folder (folder +:+ "/") = normalize_metadata_folder folder.
Proof.
  intros H. unfold normalize_metadata_folder.
  now rewrite endswith_app_char, H.
Qed.

Lemma normalize_runner_slash (runner : string) :
  normalize_runner (runner +:+ "/") = runner.
Proof.
  unfold normalize_runner. now rewrite endswith_app_char, drop_last_app_char.
Qed.

Lemma normalize_runner_plain (runner : string) :
  endswith runner "/" = false -> normalize_runner runner = runner.
Proof. intros H. unfold normalize_runner. now rewrite H. Qed.

(** C7, as the claim states it, fails for a value with two trailing
    separators: ["batch1//"] ends in the separator, and without it is
    ["batch1/"], yet the loader gets the folder ["batch1//"] for the one and
    ["batch1/"] for the other; the runners ["me//"] and ["me/"] give
    different log destinations too. *)
Lemma double_separator_not_normalized :
  map Config.s3_folder
    (loader_calls (snd (Sample.run ("batch1/" +:+ "/") "me" "v2.3.0")))
  <> map Config.s3_folder
       (loader_calls (snd (Sample.run "batch1/" "me" "v2.3.0")))
  /\ map Config.upload_log_dir
       (loader_calls (snd (Sample.run "batch1" ("me/" +:+ "/") "v2.3.0")))
     <> map Config.upload_log_dir
          (loader_calls (snd (Sample.run "batch1" "me/" "v2.3.0"))).
Proof. split; intros H; vm_compute in H; discriminate H. Qed.

(** C7, amended. For a metadata folder and for a runner that does not itself
    end in ["/"], the value with one ["/"] appended is treated as the value
    without it: the folder handed to the loader ends in exactly the one
    ["/"] either way, the runner enters the log destination without it
    either way, and the whole run is the same. *)
Theorem trailing_separator_normalized (ext : externals)
    (secret_name metadata_folder runner model_tag : string)
    (cheat_mode dry_run wipe_db : bool) (mode : string)
    (split_transaction : bool) (w : world) :
  (endswith metadata_folder "/" = false ->
   normalize_metadata_folder (metadata_folder +:+ "/") = metadata_folder +:+ "/"
   /\ normalize_metadata_folder metadata_folder = metadata_folder +:+ "/"
   /\ c3dc_hub_data_loader ext secret_name (metadata_folder +:+ "/") runner
        model_tag cheat_mode dry_run wipe_db mode split_transaction w
      = c3dc_hub_data_loader ext secret_name metadata_folder runner
          model_tag cheat_mode dry_run wipe_db mode split_transaction w)
  /\ (endswith runner "/" = false ->
      normalize_runner (runner +:+ "/") = runner
      /\ normalize_runner runner = runner
      /\ c3dc_hub_data_loader ext secret_name metadata_folder (runner +:+ "/")
           model_tag cheat_mode dry_run wipe_db mode split_transaction w
         = c3dc_hub_data_loader ext secret_name metadata_folder runner
             model_tag cheat_mode dry_run wipe_db mode split_transaction w).
Proof.
  split; intros H.
  - split; [|split].
    + rewrite (normalize_metadata_folder_slash _ H).
      unfold normalize_metadata_folder. now rewrite H.
    + unfold normalize_metadata_folder. now rewrite H.
    + unfold c3dc_hub_data_loader.
      now rewrite (normalize_metadata_folder_slash _ H).
  - split; [apply normalize_runner_slash|].
    split; [now apply normalize_runner_plain|].
    unfold c3dc_hub_data_loader.
    now rewrite normalize_runner_slash, (normalize_runner_plain _ H).
Qed.

Lemma trailing_separator_normalized_witness :
  Sample.run ("batch1" +:+ "/") "me" "v2.3.0" = Sample.run "batch1" "me" "v2.3.0"
  /\ Sample.run "batch1" ("me" +:+ "/") "v2.3.0"
     = Sample.run "batch1" "me" "v2.3.0".
Proof.
  split.
  - exact (proj2 (proj2 (proj1 (trailing_separator_normalized Sample.ext
             "c3dc/dev" "batch1" "me" "v2.3.0" false true false "upsert" true
             Sample.good_world) eq_refl))).
  - exact (proj2 (proj2 (proj2 (trailing_separator_normalized Sample.ext
             "c3dc/dev" "batch1" "me" "v2.3.0" false true false "upsert" true
             Sample.good_world) eq_refl))).
Defined.

Lemma strftime_timestamp (dt : datetime) :
  strftime dt timestamp_format
  = zfill 4 (year dt) +:+ zfill 2 (month dt) +:+ zfill 2 (day dt) +:+ "_T"
    +:+ zfill 2 (hour dt) +:+ zfill 2 (minute dt) +:+ zfill 2 (second dt).
Proof.
  unfold timestamp_format. cbn [strftime Ascii.eqb Bool.eqb].
  now rewrite string_app_nil_r.
Qed.

(** C8, as the claim states it, fails for a runner with two trailing
    separators.  For the runner ["me//"] the flow passes
    [s3://bkt/me//prefect_c3dc_dataloader_.../logs]: it removed one ["/"]
    and kept the other.  That is neither the template at the runner as
    given ([s3://bkt/me///...]) nor the template at the runner without its
    trailing separators ([s3://bkt/me/...]). *)
Lemma upload_log_dir_keeps_second_separator :
  map Config.upload_log_dir
    (loader_calls (snd (Sample.run "batch1" "me//" "v2.3.0")))
  <> [Some (upload_log_dir_of "bkt" "me//"
              "prefect_c3dc_dataloader_20240307_T090501")]
  /\ map Config.upload_log_dir
       (loader_calls (snd (Sample.run "batch1" "me//" "v2.3.0")))
     <> [Some (upload_log_dir_of "bkt" "me"
                 "prefect_c3dc_dataloader_20240307_T090501")].
Proof. split; intros H; vm_compute in H; discriminate H. Qed.

(** C8, amended. Whenever the flow calls the loader, the log-upload
    destination it passes is [s3://{bucket}/{runner}/{log_folder}/logs],
    where bucket is the secret's submission bucket, runner is the runner
    input without its last character when that is ["/"] (the input itself
    otherwise), and log_folder is [prefect_c3dc_dataloader_] followed by the
    clock reading as YYYYMMDD_THHMMSS, each field zero-padded, fractions of
    a second dropped. *)
Theorem upload_log_dir_template (ext : externals)
    (secret_name metadata_folder runner model_tag : string)
    (cheat_mode dry_run wipe_db : bool) (mode : string)
    (split_transaction : bool) (w w' : world) (out : outcome unit)
    (new : list event) (params : Config.t) :
  c3dc_hub_data_loader ext secret_name metadata_folder runner model_tag
    cheat_mode dry_run wipe_db mode split_transaction w = (out, w') ->
  added w w' new ->
  LoaderInvoked params ∈ new ->
  exists secret s3_bucket,
    secret_manager_get_secret ext secret_name = inr secret
    /\ secret !! SUBMISSION_BUCKET = Some s3_bucket
    /\ Config.upload_log_dir params
       = Some ("s3://" +:+ s3_bucket +:+ "/" +:+ normalize_runner runner
               +:+ "/" +:+ "prefect_c3dc_dataloader_"
               +:+ zfill 4 (year (datetime_now ext "EST"))
               +:+ zfill 2 (month (datetime_now ext "EST"))
               +:+ zfill 2 (day (datetime_now ext "EST"))
               +:+ "_T"
               +:+ zfill 2 (hour (datetime_now ext "EST"))
               +:+ zfill 2 (minute (datetime_now ext "EST"))
               +:+ zfill 2 (second (datetime_now ext "EST"))
               +:+ "/logs")
    /\ (endswith runner "/" = false -> normalize_runner runner = runner)
    /\ (forall r, runner = r +:+ "/" -> normalize_runner runner = r).
Proof.
  intros Hrun Hadd Hin. apply flow_inv in Hrun.
  destruct (flow_run_loader_call _ _ _ _ _ _ _ _ _ _ _ _ _ _ _ Hrun Hadd Hin)
    as (secret & uri & password & s3_bucket & Hsec & Hfields & _ & ->).
  apply secret_fields_lookup in Hfields as (_ & _ & Hbucket).
  exists secret, s3_bucket. split; [exact Hsec|]. split; [exact Hbucket|].
  split; [|split].
  - cbn [run_params Config.init Config.upload_log_dir].
    unfold run_upload_log_dir, upload_log_dir_of, run_log_folder.
    rewrite strftime_timestamp. f_equal.
    now rewrite !string_app_assoc.
  - apply normalize_runner_plain.
  - intros r ->. apply normalize_runner_slash.
Qed.

Lemma upload_log_dir_template_witness :
  exists secret s3_bucket,
    secret_manager_get_secret Sample.ext "c3dc/dev" = inr secret
    /\ secret !! SUBMISSION_BUCKET = Some s3_bucket
    /\ Config.upload_log_dir
         (run_params Sample.ext "batch1" "me/" false true false "upsert" true
            "bolt://db:7687" "pw" "bkt")
       = Some ("s3://" +:+ s3_bucket +:+ "/" +:+ normalize_runner "me/"
               +:+ "/" +:+ "prefect_c3dc_dataloader_"
               +:+ zfill 4 (year (datetime_now Sample.ext "EST"))
               +:+ zfill 2 (month (datetime_now Sample.ext "EST"))
               +:+ zfill 2 (day (datetime_now Sample.ext "EST"))
               +:+ "_T"
               +:+ zfill 2 (hour (datetime_now Sample.ext "EST"))
               +:+ zfill 2 (minute (datetime_now Sample.ext "EST"))
               +:+ zfill 2 (second (datetime_now Sample.ext "EST"))
               +:+ "/logs")
    /\ (endswith "me/" "/" = false -> normalize_runner "me/" = "me/")
    /\ (forall r, "me/" = r +:+ "/" -> normalize_runner "me/" = r).
Proof.
  exact (upload_log_dir_template Sample.ext "c3dc/dev" "batch1" "me/" "v2.3.0"
           false true false "upsert" true Sample.good_world _ _ _ _
           (surjective_pairing _) sample_run_events sample_run_loader_call).
Defined.

(** * Further properties, function by function *)

(** ** Splitting and joining *)

Lemma split_app_first (sep : ascii) (w rest : string) :
  str_in (String sep EmptyString) w = false ->
  split sep (w +:+ String sep rest) = w :: split sep rest.
Proof.
  induction w as [|c w IH]; intros Hw.
  - change (EmptyString +:+ String sep rest) with (String sep rest).
    cbn [split]. now rewrite Ascii.eqb_refl.
  - rewrite str_in_char_cons in Hw. apply orb_false_iff in Hw as [Hc Hw].
    rewrite string_app_cons. cbn [split]. now rewrite Hc, (IH Hw).
Qed.

Lemma split_segments (sep : ascii) (s : string) :
  Forall (fun w => str_in (String sep EmptyString) w = false) (split sep s).
Proof.
  induction s as [|c s IH]; [repeat constructor|].
  cbn [split]. destruct (Ascii.eqb c sep) eqn:E.
  - constructor; [reflexivity|exact IH].
  - destruct (split sep s) as [|w ws].
    + constructor; [|constructor].
      now rewrite str_in_char_cons, E.
    + inversion IH; subst. constructor; [|assumption].
      now rewrite str_in_char_cons, E.
Qed.

(** [sep.join(l).split(sep) == l] for segments without the separator *)
Lemma split_join (sep : ascii) (l : list string) :
  l <> [] ->
  Forall (fun w => str_in (String sep EmptyString) w = false) l ->
  split sep (join (String sep EmptyString) l) = l.
Proof.
  induction l as [|w ws IH]; intros Hne Hall; [congruence|].
  inversion Hall as [|? ? Hw Hws]; subst.
  destruct ws as [|w' ws'].
  - cbn [join]. now apply split_no_sep.
  - rewrite join_cons by discriminate.
    change (String sep EmptyString +:+ join (String sep EmptyString) (w' :: ws'))
      with (String sep (join (String sep EmptyString) (w' :: ws'))).
    rewrite split_app_first by assumption.
    now rewrite IH.
Qed.

Lemma split_but_last_last (sep : ascii) (s : string) :
  split sep s = but_last (split sep s) ++ [last_item (split sep s)].
Proof. apply app_removelast_last, split_not_nil. Qed.

(** ** [create_prop_file]: the plural of a node name *)

Section NodePluralFacts.

Context (ext : externals).

(** Both branches of the separator test give the split-and-join result. *)
Lemma node_plural_join (node : string) :
  node_plural ext node
  = join "_" (but_last (split "_" node)
              ++ [inflect_plural ext (last_item (split "_" node))]).
Proof.
  unfold node_plural. destruct (str_in "_" node) eqn:Hin; [reflexivity|].
  now rewrite (split_no_sep _ _ Hin).
Qed.

Lemma but_last_segments (node : string) :
  Forall (fun w => str_in "_" w = false) (but_last (split "_" node)).
Proof.
  pose proof (split_segments "_" node) as H.
  rewrite (split_but_last_last "_" node) in H.
  now apply Forall_app in H as [H _].
Qed.

Lemma node_plural_split (node : string) :
  str_in "_" (inflect_plural ext (last_item (split "_" node))) = false ->
  split "_" (node_plural ext node)
  = but_last (split "_" node)
    ++ [inflect_plural ext (last_item (split "_" node))].
Proof.
  intros Hw. rewrite node_plural_join. apply split_join.
  - now destruct (but_last (split "_" node)).
  - apply Forall_app. split; [apply but_last_segments|].
    now repeat constructor.
Qed.

End NodePluralFacts.

(** X1. The separator test of the loop does not change the result: for
    every node name, with or without ["_"], the plural is the segments of
    the name joined with ["_"] after only the last one was pluralized.  When
    the plural of the last segment has no ["_"], the plural name has the
    same number of segments as the name and the same segments before the
    last. *)
Theorem node_plural_keeps_segments (ext : externals) (node : string) :
  node_plural ext node
  = join "_" (but_last (split "_" node)
              ++ [inflect_plural ext (last_item (split "_" node))])
  /\ (str_in "_" (inflect_plural ext (last_item (split "_" node))) = false ->
      length (split "_" (node_plural ext node)) = length (split "_" node)
      /\ but_last (split "_" (node_plural ext node))
         = but_last (split "_" node)
      /\ last_item (split "_" (node_plural ext node))
         = inflect_plural ext (last_item (split "_" node))).
Proof.
  split; [apply node_plural_join|].
  intros Hw. rewrite (node_plural_split ext node Hw).
  split; [|split].
  - transitivity (length (but_last (split "_" node)
                            ++ [last_item (split "_" node)])).
    + now rewrite !length_app.
    + now rewrite <- split_but_last_last.
  - apply but_last_snoc.
  - apply last_item_snoc.
Qed.

Lemma node_plural_keeps_segments_witness :
  length (split "_" (node_plural Sample.ext "study_arm")) = 2
  /\ but_last (split "_" (node_plural Sample.ext "study_arm")) = ["study"]
  /\ last_item (split "_" (node_plural Sample.ext "study_arm")) = "arms".
Proof.
  exact (proj2 (node_plural_keeps_segments Sample.ext "study_arm") eq_refl).
Defined.

(** X2. A node name whose last segment the pluralizer returns unchanged (an
    uncountable noun) is its own plural: splitting and joining lose
    nothing. *)
Theorem node_plural_unchanged_word (ext : externals) (node : string) :
  inflect_plural ext (last_item (split "_" node)) = last_item (split "_" node) ->
  node_plural ext node = node.
Proof.
  intros Hsame. rewrite node_plural_join, Hsame.
  rewrite <- split_but_last_last. apply join_split.
Qed.

Lemma node_plural_unchanged_word_witness :
  node_plural Variant.ext "lab_equipment" = "lab_equipment".
Proof.
  exact (node_plural_unchanged_word Variant.ext "lab_equipment" eq_refl).
Defined.

(** X3. Two node names get the same plural only if they are the same name,
    as long as the plurals of their last segments have no ["_"] and are
    equal only for equal segments: the renaming adds no collisions of its
    own. *)
Theorem node_plural_no_collision (ext : externals) (node1 node2 : string) :
  str_in "_" (inflect_plural ext (last_item (split "_" node1))) = false ->
  str_in "_" (inflect_plural ext (last_item (split "_" node2))) = false ->
  (inflect_plural ext (last_item (split "_" node1))
   = inflect_plural ext (last_item (split "_" node2)) ->
   last_item (split "_" node1) = last_item (split "_" node2)) ->
  node_plural ext node1 = node_plural ext node2 ->
  node1 = node2.
Proof.
  intros H1 H2 Hinj Heq.
  apply (f_equal (split "_")) in Heq.
  rewrite (node_plural_split ext node1 H1), (node_plural_split ext node2 H2) in Heq.
  apply app_inj_tail in Heq as [Hprefix Hlast].
  specialize (Hinj Hlast).
  rewrite <- (join_split "_" node1), <- (join_split "_" node2).
  rewrite (split_but_last_last "_" node1), (split_but_last_last "_" node2).
  now rewrite Hprefix, Hinj.
Qed.

Lemma node_plural_no_collision_witness :
  node_plural Sample.ext "study_arm" <> node_plural Sample.ext "study_site"
  /\ node_plural Sample.ext "study_arm" <> node_plural Sample.ext "trial_arm"
  /\ node_plural Sample.ext "sample" <> node_plural Sample.ext "study_sample".
Proof.
  split; [|split]; intros Heq.
  - pose proof (node_plural_no_collision Sample.ext "study_arm" "study_site"
                  eq_refl eq_refl ltac:(intros H; discriminate H) Heq) as H.
    discriminate H.
  - pose proof (node_plural_no_collision Sample.ext "study_arm" "trial_arm"
                  eq_refl eq_refl (fun _ => eq_refl) Heq) as H.
    discriminate H.
  - pose proof (node_plural_no_collision Sample.ext "sample" "study_sample"
                  eq_refl eq_refl (fun _ => eq_refl) Heq) as H.
    discriminate H.
Defined.

(** ** [create_prop_file]: the two dictionaries of the loop *)

Lemma keys_setitem {V : Type} (d : pydict V) (k : string) (v : V) :
  keys (setitem d k v) = if decide (k ∈ keys d) then keys d else keys d ++ [k].
Proof.
  destruct (decide (k ∈ keys d)).
  - now apply keys_setitem_old.
  - now apply keys_setitem_new.
Qed.

Lemma keys_str_dict_items (d : pydict string) :
  keys (map (fun kv => (fst kv, PyStr (snd kv))) d) = keys d.
Proof. unfold keys. rewrite map_map. reflexivity. Qed.

Section NodeLoopOrder.

Context (ext : externals).

Lemma node_loop_fold_same_keys (l : list string) (P I : pydict string) :
  keys P = keys I ->
  keys (fst (fold_left (node_loop_body ext) l (P, I)))
  = keys (snd (fold_left (node_loop_body ext) l (P, I))).
Proof.
  revert P I. induction l as [|x l IH]; intros P I Hk; [exact Hk|].
  cbn [fold_left node_loop_body]. apply IH.
  now rewrite !keys_setitem, Hk.
Qed.

Lemma node_loop_fold_order (l : list string) (P I : pydict string) :
  NoDup l ->
  (forall x, x ∈ l -> x ∉ keys P) ->
  keys (fst (fold_left (node_loop_body ext) l (P, I))) = keys P ++ l.
Proof.
  revert P I. induction l as [|x l IH]; intros P I Hnd Hfresh.
  - cbn [fold_left fst]. now rewrite app_nil_r.
  - apply NoDup_cons in Hnd as [Hx Hnd].
    cbn [fold_left node_loop_body].
    rewrite IH; [|assumption|].
    + rewrite keys_setitem, decide_False by (apply Hfresh; now left).
      now rewrite <- app_assoc.
    + intros y Hy. rewrite keys_setitem, decide_False by (apply Hfresh; now left).
      rewrite elem_of_app, list_elem_of_singleton.
      intros [Hin| ->]; [|contradiction].
      apply (Hfresh y); [now right|assumption].
Qed.

Lemma node_loop_same_keys (node_list : list string) :
  keys (fst (node_loop ext node_list)) = keys (snd (node_loop ext node_list)).
Proof. exact (node_loop_fold_same_keys node_list [] [] eq_refl). Qed.

Lemma node_loop_order (node_list : list string) :
  NoDup node_list -> keys (fst (node_loop ext node_list)) = node_list.
Proof.
  intros Hnd.
  exact (node_loop_fold_order node_list [] [] Hnd
           (fun x _ => not_elem_of_nil x)).
Qed.

End NodeLoopOrder.

(** X4. In the document a returning derivation persists, [plurals] and
    [id_fields] always have the same keys in the same order, and when the
    node names of the model are distinct (as the keys of a mapping are),
    that order is the order of the nodes in the model. *)
Theorem node_order_kept (ext : externals)
    (model_yaml delimiter domain_value : string) (w w' : world) (path : string) :
  create_prop_file ext model_yaml delimiter domain_value w = (Returned path, w') ->
  exists content d nodes doc properties plurals id_fields,
    files w !! model_yaml = Some content
    /\ yaml_safe_load ext content = Some (PyDict d)
    /\ getitem d "Nodes" = Some (PyDict nodes)
    /\ files w' !! "props_file.yaml" = Some (yaml_dump ext doc false)
    /\ pyval_item doc "Properties" = Some properties
    /\ pyval_item properties "plurals" = Some (PyDict plurals)
    /\ pyval_item properties "id_fields" = Some (PyDict id_fields)
    /\ keys plurals = keys id_fields
    /\ (NoDup (keys nodes) ->
        keys plurals = keys nodes /\ keys id_fields = keys nodes).
Proof.
  intros Hrun.
  destruct (create_prop_file_returned _ _ _ _ _ _ _ Hrun)
    as (content & d & nodes & Hf & Hl & Hn & _ & _ & Hdoc).
  exists content, d, nodes. eexists _, _, _, _.
  do 3 (split; [eassumption|]). split; [exact Hdoc|].
  rewrite prop_document_shape.
  split; [reflexivity|]. split; [reflexivity|]. split; [reflexivity|].
  rewrite !keys_str_dict_items.
  pose proof (node_loop_same_keys ext (keys nodes)) as Hsame.
  split; [exact Hsame|].
  intros Hnd. pose proof (node_loop_order ext (keys nodes) Hnd) as Hord.
  split; [exact Hord|]. now rewrite <- Hsame.
Qed.

Lemma node_order_kept_witness :
  exists plurals id_fields,
    pyval_item (prop_document Sample.ext "example.org" ";"
                  ["diagnosis"; "study_arm"]) "Properties"
    = Some (PyDict [("domain_value", PyStr "example.org");
                    ("rel_prop_delimiter", PyStr "$");
                    ("delimiter", PyStr ";");
                    ("plurals", PyDict plurals);
                    ("type_mapping", PyDict type_mapping);
                    ("id_fields", PyDict id_fields)])
    /\ keys plurals = ["diagnosis"; "study_arm"]
    /\ keys id_fields = ["diagnosis"; "study_arm"].
Proof.
  destruct (node_order_kept Sample.ext Sample.model_path ";" "example.org"
              Sample.good_world _ _ sample_derivation)
    as (content & d & nodes & doc & properties & plurals & id_fields
        & Hf & Hl & Hn & _ & _ & _ & _ & _ & _).
  eexists _, _. split; [reflexivity|]. split; reflexivity.
Defined.

(** ** [create_prop_file]: its other failures *)

(** X6. The failures of a derivation other than a parse error and a missing
    ["Nodes"] key: a model file that does not exist raises
    [FileNotFoundError] with nothing read; a document that is not a mapping
    (a list, a scalar, an empty file) raises [TypeError]; a ["Nodes"] entry
    that is not a mapping raises [AttributeError].  The world is left with
    at most the read of the model file. *)
Theorem derivation_other_failures (ext : externals)
    (model_yaml delimiter domain_value : string) (w : world) :
  (files w !! model_yaml = None ->
   create_prop_file ext model_yaml delimiter domain_value w
   = (Raised (FileNotFoundError model_yaml), w))
  /\ (forall content doc,
        files w !! model_yaml = Some content ->
        yaml_safe_load ext content = Some doc ->
        (forall d, doc <> PyDict d) ->
        create_prop_file ext model_yaml delimiter domain_value w
        = (Raised TypeError, emit w [FileRead model_yaml]))
  /\ (forall content d nodes,
        files w !! model_yaml = Some content ->
        yaml_safe_load ext content = Some (PyDict d) ->
        getitem d "Nodes" = Some nodes ->
        (forall nd, nodes <> PyDict nd) ->
        create_prop_file ext model_yaml delimiter domain_value w
        = (Raised AttributeError, emit w [FileRead model_yaml])).
Proof.
  split; [|split].
  - intros Hf. unfold create_prop_file, bind, read_file. now rewrite Hf.
  - intros content doc Hf Hl Hnot.
    unfold create_prop_file, bind, read_file. rewrite Hf, Hl. cbn [ret].
    destruct doc; try reflexivity. now destruct (Hnot d).
  - intros content d nodes Hf Hl Hn Hnot.
    unfold create_prop_file, bind, read_file. rewrite Hf, Hl.
    cbn [ret subscript]. rewrite Hn. cbn [ret].
    destruct nodes; try reflexivity. now destruct (Hnot d0).
Qed.

Lemma derivation_other_failures_witness :
  create_prop_file Variant.ext "missing.yml" ";" "example.org"
    Sample.good_world
  = (Raised (FileNotFoundError "missing.yml"), Sample.good_world)
  /\ create_prop_file Variant.ext Sample.model_path ";" "example.org"
       (Sample.world_with "- a")
     = (Raised TypeError,
        emit (Sample.world_with "- a") [FileRead Sample.model_path])
  /\ create_prop_file Variant.ext Sample.model_path ";" "example.org"
       (Sample.world_with "Nodes:")
     = (Raised AttributeError,
        emit (Sample.world_with "Nodes:") [FileRead Sample.model_path]).
Proof.
  split; [|split].
  - exact (proj1 (derivation_other_failures Variant.ext "missing.yml" ";"
                    "example.org" Sample.good_world) eq_refl).
  - refine (proj1 (proj2 (derivation_other_failures Variant.ext
                            Sample.model_path ";" "example.org"
                            (Sample.world_with "- a")))
              "- a" (PyList [PyStr "a"]) eq_refl eq_refl _).
    intros d H. discriminate H.
  - refine (proj2 (proj2 (derivation_other_failures Variant.ext
                            Sample.model_path ";" "example.org"
                            (Sample.world_with "Nodes:")))
              "Nodes:" [("Nodes", PyNone)] PyNone eq_refl eq_refl eq_refl _).
    intros nd H. discriminate H.
Defined.

(** ** [get_git_tag] *)

Section StripFacts.

Lemma rstrip_cons_keep (c : ascii) (s : string) :
  isspace c = false -> rstrip (String c s) = String c (rstrip s).
Proof. intros Hc. cbn [rstrip]. rewrite Hc. now destruct (rstrip s). Qed.

Lemma rstrip_idempotent (s : string) : rstrip (rstrip s) = rstrip s.
Proof.
  induction s as [|c s IH]; [reflexivity|].
  cbn [rstrip]. destruct (rstrip s) as [|a r] eqn:E.
  - destruct (isspace c) eqn:Hc; [reflexivity|].
    cbn [rstrip]. now rewrite Hc.
  - cbn [rstrip] in IH |- *. cbn [rstrip]. fold (rstrip (String a r)).
    change (match rstrip (String a r) with
            | EmptyString => if isspace c then EmptyString
                             else String c EmptyString
            | String a0 s0 => String c (String a0 s0)
            end = String c (String a r)).
    change (rstrip (String a r) = String a r) in IH.
    now rewrite IH.
Qed.

Lemma rstrip_last_char (s : string) (c : ascii) :
  last_char (rstrip s) = Some c -> isspace c = false.
Proof.
  induction s as [|a s IH]; [discriminate|].
  cbn [rstrip]. destruct (rstrip s) as [|b r] eqn:E.
  - destruct (isspace a) eqn:Ha; [discriminate|].
    cbn. intros H. now inversion H; subst.
  - intros H. apply IH. exact H.
Qed.

Lemma lstrip_first_char (s : string) (c : ascii) :
  first_char (lstrip s) = Some c -> isspace c = false.
Proof.
  induction s as [|a s IH]; [discriminate|].
  cbn [lstrip]. destruct (isspace a) eqn:Ha; [exact IH|].
  cbn. intros H. now inversion H; subst.
Qed.

Lemma lstrip_fixed (s : string) :
  (forall c, first_char s = Some c -> isspace c = false) -> lstrip s = s.
Proof.
  destruct s as [|a s]; [reflexivity|].
  intros H. cbn [lstrip]. now rewrite (H a eq_refl).
Qed.

Lemma strip_first_char (s : string) (c : ascii) :
  first_char (strip s) = Some c -> isspace c = false.
Proof.
  unfold strip. pose proof (lstrip_first_char s) as Hl.
  destruct (lstrip s) as [|a t]; [discriminate|].
  rewrite rstrip_cons_keep by (now apply Hl).
  cbn. intros H. inversion H; subst. now apply Hl.
Qed.

Lemma strip_last_char (s : string) (c : ascii) :
  last_char (strip s) = Some c -> isspace c = false.
Proof. apply rstrip_last_char. Qed.

(** [s.strip().strip() == s.strip()] *)
Lemma strip_idempotent (s : string) : strip (strip s) = strip s.
Proof.
  unfold strip at 1.
  rewrite (lstrip_fixed (strip s)) by apply strip_first_char.
  unfold strip. apply rstrip_idempotent.
Qed.

End StripFacts.

(** X8. [get_git_tag] turns exactly one failure into a value: when
    [git describe] exits with an error ([CalledProcessError]) it prints that
    no tag was found and returns [None]; any other exception of the
    subprocess call propagates; an output is returned stripped.  It never
    raises [CalledProcessError] and never changes a file. *)
Theorem get_git_tag_outcomes (ext : externals) (repo_path : string) (w : world) :
  files (snd (get_git_tag ext repo_path w)) = files w
  /\ fst (get_git_tag ext repo_path w) <> Raised CalledProcessError
  /\ (fst (get_git_tag ext repo_path w) = Returned None
      <-> subprocess_check_output ext git_describe_cmd repo_path
          = inl CalledProcessError)
  /\ (subprocess_check_output ext git_describe_cmd repo_path
      = inl CalledProcessError ->
      get_git_tag ext repo_path w
      = (Returned None,
         emit w [Subprocess git_describe_cmd repo_path;
                 Printed "No tag found for the current commit."]))
  /\ (forall raw,
        subprocess_check_output ext git_describe_cmd repo_path = inr raw ->
        get_git_tag ext repo_path w
        = (Returned (Some (strip raw)),
           emit w [Subprocess git_describe_cmd repo_path]))
  /\ (forall e,
        e <> CalledProcessError ->
        subprocess_check_output ext git_describe_cmd repo_path = inl e ->
        get_git_tag ext repo_path w
        = (Raised e, emit w [Subprocess git_describe_cmd repo_path])).
Proof.
  rewrite get_git_tag_run. unfold tag_resolution. cbn [fst snd emit files].
  destruct (subprocess_check_output ext git_describe_cmd repo_path)
    as [e|raw] eqn:Hout.
  - destruct e; (split; [reflexivity|]); (split; [discriminate|]);
      (split; [split; intros H; first [reflexivity|discriminate H]|]);
      (split; [intros H; first [reflexivity|discriminate H]|]);
      (split; [intros raw H; discriminate H|]);
      intros e' Hne He'; inversion He'; subst;
      first [reflexivity|congruence].
  - split; [reflexivity|]. split; [discriminate|].
    split; [split; discriminate|]. split; [discriminate|].
    split; [|discriminate]. intros raw' H. now inversion H.
Qed.

Lemma get_git_tag_outcomes_witness :
  get_git_tag Sample.ext_untagged model_repo Sample.good_world
  = (Returned None,
     emit Sample.good_world
       [Subprocess git_describe_cmd model_repo;
        Printed "No tag found for the current commit."])
  /\ get_git_tag Sample.ext model_repo Sample.good_world
     = (Returned (Some "v2.3.0"),
        emit Sample.good_world [Subprocess git_describe_cmd model_repo])
  /\ get_git_tag Variant.ext_no_git model_repo Sample.good_world
     = (Raised (FileNotFoundError "git"),
        emit Sample.good_world [Subprocess git_describe_cmd model_repo]).
Proof.
  destruct (get_git_tag_outcomes Sample.ext_untagged model_repo
              Sample.good_world) as (_ & _ & _ & Hnone & _).
  destruct (get_git_tag_outcomes Sample.ext model_repo Sample.good_world)
    as (_ & _ & _ & _ & Htag & _).
  destruct (get_git_tag_outcomes Variant.ext_no_git model_repo
              Sample.good_world) as (_ & _ & _ & _ & _ & Hexn).
  split; [exact (Hnone eq_refl)|]. split; [exact (Htag _ eq_refl)|].
  exact (Hexn (FileNotFoundError "git") ltac:(discriminate) eq_refl).
Defined.

Lemma tag_resolution_stripped (ext : externals) (repo_path tag : string) :
  tag_resolution ext repo_path = Returned (Some tag) -> strip tag = tag.
Proof.
  unfold tag_resolution.
  destruct (subprocess_check_output ext git_describe_cmd repo_path) as [e|raw];
    [destruct e; discriminate|].
  intros H. inversion H; subst. apply strip_idempotent.
Qed.

(** X9. A tag that [get_git_tag] returns is stripped: stripping it again
    changes nothing, and it neither starts nor ends with a whitespace
    character. *)
Theorem resolved_tag_is_stripped (ext : externals) (repo_path : string)
    (w : world) (tag : string) :
  fst (get_git_tag ext repo_path w) = Returned (Some tag) ->
  strip tag = tag
  /\ (forall c, first_char tag = Some c -> isspace c = false)
  /\ (forall c, last_char tag = Some c -> isspace c = false).
Proof.
  rewrite get_git_tag_outcome. intros H.
  pose proof (tag_resolution_stripped _ _ _ H) as Hs.
  split; [exact Hs|]. rewrite <- Hs.
  split; intros c; [apply strip_first_char|apply strip_last_char].
Qed.

Lemma resolved_tag_is_stripped_witness :
  strip "v2.3.0" = "v2.3.0"
  /\ (forall c, first_char "v2.3.0" = Some c -> isspace c = false)
  /\ (forall c, last_char "v2.3.0" = Some c -> isspace c = false).
Proof.
  exact (resolved_tag_is_stripped Sample.ext model_repo Sample.good_world
           "v2.3.0" eq_refl).
Defined.

(** ** [c3dc_hub_data_loader] *)

Section FlowShape.

Context (ext : externals)
        (secret_name metadata_folder runner model_tag : string)
        (cheat_mode dry_run wipe_db : bool) (mode : string)
        (split_transaction : bool).

(** A run either raised before anything was written or called, or went
    through the derivation and called the loader. *)
Lemma flow_run_dichotomy (w w' : world) (out : outcome unit) :
  flow_run ext secret_name metadata_folder runner model_tag cheat_mode dry_run
    wipe_db mode split_transaction w out w' ->
  ((exists e, out = Raised e)
   /\ files w' = files w
   /\ exists new, added w w' new /\ Forall harmless new)
  \/ (exists secret uri password s3_bucket content d nodes,
        secret_manager_get_secret ext secret_name = inr secret
        /\ secret_fields secret = Some (uri, password, s3_bucket)
        /\ tag_resolution ext model_repo = Returned (Some model_tag)
        /\ files w !! "../c3dc-model/model-desc/c3dc-model.yml" = Some content
        /\ yaml_safe_load ext content = Some (PyDict d)
        /\ getitem d "Nodes" = Some (PyDict nodes)
        /\ out = load_outcome ext
                   (run_params ext metadata_folder runner cheat_mode dry_run
                      wipe_db mode split_transaction uri password s3_bucket)
        /\ files w'
           = <["props_file.yaml" :=
                 prop_file_text ext "clinicalcommons.ccdi.cancer.gov" ";"
                   (keys nodes)]> (files w)
        /\ added w w'
             (guard_events secret_name model_tag (Some model_tag)
              ++ [match_event]
              ++ prop_file_events
                   (prop_file_text ext "clinicalcommons.ccdi.cancer.gov" ";"
                      (keys nodes))
              ++ load_events ext
                   (run_params ext metadata_folder runner cheat_mode dry_run
                      wipe_db mode split_transaction uri password s3_bucket))).
Proof.
  intros Hrun. inversion Hrun; subst.
  - left. split; [eauto|]. split; [assumption|].
    eexists. split; [eassumption|repeat constructor].
  - left. split; [eauto|]. split; [assumption|].
    eexists. split; [eassumption|repeat constructor].
  - left. split; [eauto|]. split; [assumption|].
    eexists. split; [eassumption|repeat constructor].
  - left. split; [eauto|]. split; [assumption|].
    eexists. split; [eassumption|].
    apply Forall_app. split;
      [apply guard_events_harmless|apply mismatch_events_harmless].
  - left. split; [eauto|]. split; [assumption|].
    eexists. split; [eassumption|].
    apply Forall_app. split; [apply guard_events_harmless|].
    apply Forall_cons. split; [repeat constructor|].
    eapply prop_file_failure_harmless; eassumption.
  - right. exists secret, uri, password, s3_bucket, content, d, nodes.
    repeat (split; [assumption || reflexivity|]). assumption.
Qed.

End FlowShape.

(** X10. An expected tag with leading or trailing whitespace never passes
    the comparison, whatever the repository holds, because resolved tags are
    stripped: every such run raises, changes no file, writes nothing and
    does not call the loader. *)
Theorem unstripped_tag_never_passes (ext : externals)
    (secret_name metadata_folder runner model_tag : string)
    (cheat_mode dry_run wipe_db : bool) (mode : string)
    (split_transaction : bool) (w w' : world) (out : outcome unit) :
  strip model_tag <> model_tag ->
  c3dc_hub_data_loader ext secret_name metadata_folder runner model_tag
    cheat_mode dry_run wipe_db mode split_transaction w = (out, w') ->
  (exists e, out = Raised e)
  /\ files w' = files w
  /\ exists new, added w w' new /\ Forall harmless new.
Proof.
  intros Hstrip Hrun. apply flow_inv in Hrun.
  destruct (flow_run_dichotomy _ _ _ _ _ _ _ _ _ _ _ _ _ Hrun)
    as [Hquiet|(secret & uri & password & s3_bucket & content & d & nodes
                & _ & _ & Htag & _)]; [exact Hquiet|].
  now apply tag_resolution_stripped in Htag.
Qed.

Lemma unstripped_tag_never_passes_witness :
  fst (Sample.run "batch1" "me" "v2.3.0 ") = Raised (ValueError mismatch_message)
  /\ files (snd (Sample.run "batch1" "me" "v2.3.0 ")) = files Sample.good_world.
Proof.
  destruct (unstripped_tag_never_passes Sample.ext "c3dc/dev" "batch1" "me"
              "v2.3.0 " false true false "upsert" true Sample.good_world _ _
              ltac:(discriminate) (surjective_pairing _))
    as (_ & Hfiles & _).
  split; [reflexivity|exact Hfiles].
Defined.

(** X11. Failures of the secret: an exception of [get_secret] propagates,
    and a secret that lacks one of the three keys raises [KeyError] for the
    first missing one in the order URI, password, bucket.  In both cases the
    flow stops there: git is not called and no file is read or written. *)
Theorem secret_failures (ext : externals)
    (secret_name metadata_folder runner model_tag : string)
    (cheat_mode dry_run wipe_db : bool) (mode : string)
    (split_transaction : bool) (w : world) :
  (forall e,
     secret_manager_get_secret ext secret_name = inl e ->
     c3dc_hub_data_loader ext secret_name metadata_folder runner model_tag
       cheat_mode dry_run wipe_db mode split_transaction w
     = (Raised e,
        emit w [Printed "Getting secrets from AWS Secrets Manager";
                SecretFetched secret_name]))
  /\ (forall secret key,
        secret_manager_get_secret ext secret_name = inr secret ->
        first_missing_key secret = Some key ->
        c3dc_hub_data_loader ext secret_name metadata_folder runner model_tag
          cheat_mode dry_run wipe_db mode split_transaction w
        = (Raised (KeyError key),
           emit w [Printed "Getting secrets from AWS Secrets Manager";
                   SecretFetched secret_name])).
Proof.
  split.
  - intros e Hsec. unfold c3dc_hub_data_loader.
    rewrite (bind_returned _ _ _ _ _ (print_run _ _)).
    unfold bind at 1. rewrite get_secret_run, emit_emit, Hsec. reflexivity.
  - intros secret key Hsec Hkey. unfold c3dc_hub_data_loader.
    rewrite (bind_returned _ _ _ _ _ (print_run _ _)).
    unfold bind at 1. rewrite get_secret_run, emit_emit, Hsec.
    unfold first_missing_key in Hkey.
    unfold bind at 1. rewrite lookup_key_run.
    destruct (secret !! NEO4J_URI); [|now inversion Hkey].
    unfold bind at 1. rewrite lookup_key_run.
    destruct (secret !! NEO4J_PASSWORD); [|now inversion Hkey].
    unfold bind at 1. rewrite lookup_key_run.
    destruct (secret !! SUBMISSION_BUCKET); [discriminate|now inversion Hkey].
Qed.

Lemma secret_failures_witness :
  c3dc_hub_data_loader Variant.ext_no_password "c3dc/dev" "batch1" "me"
    "v2.3.0" false true false "upsert" true Sample.good_world
  = (Raised (KeyError "neo4j_password"),
     emit Sample.good_world
       [Printed "Getting secrets from AWS Secrets Manager";
        SecretFetched "c3dc/dev"]).
Proof.
  exact (proj2 (secret_failures Variant.ext_no_password "c3dc/dev" "batch1"
                  "me" "v2.3.0" false true false "upsert" true
                  Sample.good_world)
           (delete NEO4J_PASSWORD Sample.secret) "neo4j_password"
           eq_refl eq_refl).
Defined.

Section LoaderCall.

Context (ext : externals)
        (secret_name metadata_folder runner model_tag : string)
        (cheat_mode dry_run wipe_db : bool) (mode : string)
        (split_transaction : bool).

(** All that is known of a run in which the loader was called. *)
Lemma flow_loader_call_inv (w w' : world) (out : outcome unit)
    (new : list event) (params : Config.t) :
  c3dc_hub_data_loader ext secret_name metadata_folder runner model_tag
    cheat_mode dry_run wipe_db mode split_transaction w = (out, w') ->
  added w w' new ->
  LoaderInvoked params ∈ new ->
  exists secret uri password s3_bucket content d nodes,
    secret_manager_get_secret ext secret_name = inr secret
    /\ secret_fields secret = Some (uri, password, s3_bucket)
    /\ files w !! "../c3dc-model/model-desc/c3dc-model.yml" = Some content
    /\ yaml_safe_load ext content = Some (PyDict d)
    /\ getitem d "Nodes" = Some (PyDict nodes)
    /\ params = run_params ext metadata_folder runner cheat_mode dry_run
                  wipe_db mode split_transaction uri password s3_bucket
    /\ out = load_outcome ext params
    /\ files w'
       = <["props_file.yaml" :=
             prop_file_text ext "clinicalcommons.ccdi.cancer.gov" ";"
               (keys nodes)]> (files w)
    /\ new = guard_events secret_name model_tag (Some model_tag)
             ++ [match_event]
             ++ prop_file_events
                  (prop_file_text ext "clinicalcommons.ccdi.cancer.gov" ";"
                     (keys nodes))
             ++ load_events ext params.
Proof.
  intros Hrun Hadd Hin. apply flow_inv in Hrun.
  destruct (flow_run_loader_call _ _ _ _ _ _ _ _ _ _ _ _ _ _ _ Hrun Hadd Hin)
    as (secret' & uri' & password' & s3_bucket' & Hsec' & Hfields' & _ & Hparams).
  destruct (flow_run_dichotomy _ _ _ _ _ _ _ _ _ _ _ _ _ Hrun)
    as [(_ & _ & new' & Hadd' & Hall)
       |(secret & uri & password & s3_bucket & content & d & nodes
         & Hsec & Hfields & _ & Hf & Hl & Hn & Hout & Hfiles & Hadd')].
  - unfold added in *. rewrite Hadd in Hadd'. apply app_inv_head in Hadd'.
    subst new'. now apply not_loader_call_harmless with (params := params) in Hall.
  - rewrite Hsec in Hsec'. inversion Hsec'; subst secret'.
    rewrite Hfields in Hfields'. inversion Hfields'; subst uri' password' s3_bucket'.
    subst params. unfold added in *. rewrite Hadd in Hadd'.
    apply app_inv_head in Hadd'.
    exists secret, uri, password, s3_bucket, content, d, nodes.
    repeat (split; [assumption || reflexivity|]). assumption.
Qed.

End LoaderCall.

(** X12. What the loader does decides how the flow ends.  If [main] raises,
    the flow raises the same exception and the loader call is the last
    thing it did; if [main] returns, the flow returns and its last act is
    to print the log-upload destination it passed.  Either way the
    property file is left in place.  The flow returns only in a run that
    called the loader. *)
Theorem loader_outcome_propagates (ext : externals)
    (secret_name metadata_folder runner model_tag : string)
    (cheat_mode dry_run wipe_db : bool) (mode : string)
    (split_transaction : bool) (w w' : world) (out : outcome unit)
    (new : list event) :
  c3dc_hub_data_loader ext secret_name metadata_folder runner model_tag
    cheat_mode dry_run wipe_db mode split_transaction w = (out, w') ->
  added w w' new ->
  (forall params,
     LoaderInvoked params ∈ new ->
     (forall e, loader_main ext params = Some e ->
                out = Raised e /\ last new = Some (LoaderInvoked params))
     /\ (loader_main ext params = None ->
         out = Returned tt
         /\ exists dir,
              Config.upload_log_dir params = Some dir
              /\ last new
                 = Some (Printed ("log file can be found in the s3 location "
                                  +:+ dir)))
     /\ exists text, files w' !! "props_file.yaml" = Some text)
  /\ (out = Returned tt ->
      exists params, LoaderInvoked params ∈ new
                     /\ loader_main ext params = None).
Proof.
  intros Hrun Hadd. split.
  - intros params Hin.
    destruct (flow_loader_call_inv _ _ _ _ _ _ _ _ _ _ _ _ _ _ _ Hrun Hadd Hin)
      as (secret & uri & password & s3_bucket & content & d & nodes
          & _ & _ & _ & _ & _ & Hparams & Hout & Hfiles & Hnew).
    split; [|split].
    + intros e He. unfold load_outcome in Hout. rewrite He in Hout.
      split; [exact Hout|]. rewrite Hnew. unfold load_events. rewrite He.
      reflexivity.
    + intros Hnone. unfold load_outcome in Hout. rewrite Hnone in Hout.
      split; [exact Hout|]. subst params. eexists. split; [reflexivity|].
      rewrite Hnew. unfold load_events. rewrite Hnone. reflexivity.
    + eexists. rewrite Hfiles. apply lookup_insert_eq.
  - intros ->. apply flow_inv in Hrun.
    destruct (flow_run_dichotomy _ _ _ _ _ _ _ _ _ _ _ _ _ Hrun)
      as [([e He] & _)
         |(secret & uri & password & s3_bucket & content & d & nodes
           & _ & _ & _ & _ & _ & _ & Hout & _ & Hadd')]; [discriminate|].
    unfold added in *. rewrite Hadd in Hadd'. apply app_inv_head in Hadd'.
    eexists. split.
    + rewrite Hadd'. apply elem_of_app. right. right.
      apply elem_of_app. right. unfold load_events.
      apply elem_of_app. left. right. now left.
    + unfold load_outcome in Hout.
      now destruct (loader_main ext _).
Qed.

Lemma failing_loader_call :
  LoaderInvoked
    (run_params Variant.ext_loader_fails "batch1" "me" false true false
       "upsert" true "bolt://db:7687" "pw" "bkt")
  ∈ events (snd (Variant.run Variant.ext_loader_fails "batch1" "me" "v2.3.0")).
Proof.
  vm_compute. do 12 apply list_elem_of_further. apply list_elem_of_here.
Qed.

Lemma loader_outcome_propagates_witness :
  fst (Sample.run "batch1" "me/" "v2.3.0") = Returned tt
  /\ fst (Variant.run Variant.ext_loader_fails "batch1" "me" "v2.3.0")
     = Raised (ExternalError "neo4j unavailable")
  /\ last (events (snd (Variant.run Variant.ext_loader_fails "batch1" "me"
                          "v2.3.0")))
     = Some (LoaderInvoked
               (run_params Variant.ext_loader_fails "batch1" "me" false true
                  false "upsert" true "bolt://db:7687" "pw" "bkt")).
Proof.
  destruct (loader_outcome_propagates Sample.ext "c3dc/dev" "batch1" "me/"
              "v2.3.0" false true false "upsert" true Sample.good_world _ _ _
              (surjective_pairing _) sample_run_events) as [Hcall _].
  destruct (Hcall _ sample_run_loader_call) as (_ & Hok & _).
  destruct (loader_outcome_propagates Variant.ext_loader_fails "c3dc/dev"
              "batch1" "me" "v2.3.0" false true false "upsert" true
              Sample.good_world _ _ _ (surjective_pairing _) eq_refl)
    as [Hfail _].
  destruct (Hfail _ failing_loader_call) as (Hraise & _).
  split; [exact (proj1 (Hok eq_refl))|].
  exact (Hraise _ eq_refl).
Defined.

(** X13. How the loader's [Config] is wired.  Its URI, password and bucket
    are the secret's three entries; [prop_file] is the path the derivation
    returned, which holds the derived text when the loader is called;
    [schema] is the two model files with the one the derivation read first;
    and the parameters the flow leaves to [load_data]'s defaults have those
    defaults: user [neo4j], backup folder [tmp/data-loader-backups],
    [no_parents] true, [verbose] false.  Dataset and temporary folder are
    [data] and [tmp], and no configuration file is set. *)
Theorem loader_params_wiring (ext : externals)
    (secret_name metadata_folder runner model_tag : string)
    (cheat_mode dry_run wipe_db : bool) (mode : string)
    (split_transaction : bool) (w w' : world) (out : outcome unit)
    (new : list event) (params : Config.t) :
  c3dc_hub_data_loader ext secret_name metadata_folder runner model_tag
    cheat_mode dry_run wipe_db mode split_transaction w = (out, w') ->
  added w w' new ->
  LoaderInvoked params ∈ new ->
  exists secret content text,
    secret_manager_get_secret ext secret_name = inr secret
    /\ secret !! NEO4J_URI = Some (Config.uri params)
    /\ secret !! NEO4J_PASSWORD = Some (Config.password params)
    /\ secret !! SUBMISSION_BUCKET = Some (Config.bucket params)
    /\ Config.schema params
       = ["../c3dc-model/model-desc/c3dc-model.yml";
          "../c3dc-model/model-desc/c3dc-model-props.yml"]
    /\ files w !! "../c3dc-model/model-desc/c3dc-model.yml" = Some content
    /\ FileRead "../c3dc-model/model-desc/c3dc-model.yml" ∈ new
    /\ Config.prop_file params = "props_file.yaml"
    /\ FileWritten (Config.prop_file params) text ∈ new
    /\ files w' !! Config.prop_file params = Some text
    /\ Config.dataset params = "data"
    /\ Config.user params = "neo4j"
    /\ Config.temp_folder params = "tmp"
    /\ Config.backup_folder params = "tmp/data-loader-backups"
    /\ Config.no_parents params = true
    /\ Config.verbose params = false
    /\ Config.config_file params = None.
Proof.
  intros Hrun Hadd Hin.
  destruct (flow_loader_call_inv _ _ _ _ _ _ _ _ _ _ _ _ _ _ _ Hrun Hadd Hin)
    as (secret & uri & password & s3_bucket & content & d & nodes
        & Hsec & Hfields & Hf & _ & _ & -> & _ & Hfiles & ->).
  apply secret_fields_lookup in Hfields as (Huri & Hpw & Hbucket).
  exists secret, content. eexists.
  split; [exact Hsec|]. split; [exact Huri|]. split; [exact Hpw|].
  split; [exact Hbucket|]. split; [reflexivity|]. split; [exact Hf|].
  split.
  { apply elem_of_app. right. right. apply elem_of_app. left. now left. }
  split; [reflexivity|]. split.
  { apply elem_of_app. right. right. apply elem_of_app. left. right. now left. }
  split; [rewrite Hfiles; apply lookup_insert_eq|].
  repeat split.
Qed.

Lemma loader_params_wiring_witness :
  exists secret content text,
    secret_manager_get_secret Sample.ext "c3dc/dev" = inr secret
    /\ secret !! NEO4J_URI = Some "bolt://db:7687"
    /\ secret !! NEO4J_PASSWORD = Some "pw"
    /\ secret !! SUBMISSION_BUCKET = Some "bkt"
    /\ files Sample.good_world !! "../c3dc-model/model-desc/c3dc-model.yml"
       = Some content
    /\ files (snd (Sample.run "batch1" "me/" "v2.3.0")) !! "props_file.yaml"
       = Some text.
Proof.
  destruct (loader_params_wiring Sample.ext "c3dc/dev" "batch1" "me/" "v2.3.0"
              false true false "upsert" true Sample.good_world _ _ _ _
              (surjective_pairing _) sample_run_events sample_run_loader_call)
    as (secret & content & text & Hsec & Huri & Hpw & Hbucket & _ & Hf & _
        & _ & _ & Htext & _).
  exists secret, content, text. auto 10.
Defined.

Lemma normalize_metadata_folder_endswith (metadata_folder : string) :
  endswith (normalize_metadata_folder metadata_folder) "/" = true.
Proof.
  unfold normalize_metadata_folder.
  destruct (endswith metadata_folder "/") eqn:E; cbn [negb];
    [exact E|apply endswith_app_char].
Qed.

(** X14. The folder handed to the loader always ends in ["/"]: it is the
    caller's folder when that ends in ["/"] and the folder followed by
    ["/"] otherwise, the empty folder becoming ["/"]; normalizing it again
    changes nothing. *)
Theorem s3_folder_ends_with_separator (ext : externals)
    (secret_name metadata_folder runner model_tag : string)
    (cheat_mode dry_run wipe_db : bool) (mode : string)
    (split_transaction : bool) (w w' : world) (out : outcome unit)
    (new : list event) (params : Config.t) :
  c3dc_hub_data_loader ext secret_name metadata_folder runner model_tag
    cheat_mode dry_run wipe_db mode split_transaction w = (out, w') ->
  added w w' new ->
  LoaderInvoked params ∈ new ->
  endswith (Config.s3_folder params) "/" = true
  /\ (endswith metadata_folder "/" = true ->
      Config.s3_folder params = metadata_folder)
  /\ (endswith metadata_folder "/" = false ->
      Config.s3_folder params = metadata_folder +:+ "/")
  /\ normalize_metadata_folder (Config.s3_folder params)
     = Config.s3_folder params.
Proof.
  intros Hrun Hadd Hin.
  destruct (flow_loader_call_inv _ _ _ _ _ _ _ _ _ _ _ _ _ _ _ Hrun Hadd Hin)
    as (secret & uri & password & s3_bucket & content & d & nodes
        & _ & _ & _ & _ & _ & -> & _).
  cbn [run_params Config.init Config.s3_folder].
  split; [apply normalize_metadata_folder_endswith|].
  split; [|split].
  - intros H. unfold normalize_metadata_folder. now rewrite H.
  - intros H. unfold normalize_metadata_folder. now rewrite H.
  - unfold normalize_metadata_folder at 1.
    now rewrite normalize_metadata_folder_endswith.
Qed.

Lemma s3_folder_ends_with_separator_witness :
  endswith (normalize_metadata_folder "batch1") "/" = true
  /\ normalize_metadata_folder "batch1" = "batch1" +:+ "/".
Proof.
  destruct (s3_folder_ends_with_separator Sample.ext "c3dc/dev" "batch1" "me/"
              "v2.3.0" false true false "upsert" true Sample.good_world _ _ _ _
              (surjective_pairing _) sample_run_events sample_run_loader_call)
    as (Hends & _ & Happend & _).
  split; [exact Hends|exact (Happend eq_refl)].
Defined.

Lemma not_file_write_harmless (l : list event) (path text : string) :
  Forall harmless l -> FileWritten path text ∉ l.
Proof.
  intros Hall Hin. rewrite Forall_forall in Hall.
  destruct (Hall _ Hin) as [H _]. discriminate H.
Qed.

(** X15. What a run does to the world, and in which order.  The only path
    it ever writes is [props_file.yaml], and every other file is as it was
    when the flow ends.  The loader is called at most once, after the
    property file was written, and after the call nothing is written or
    called. *)
Theorem flow_effects_in_order (ext : externals)
    (secret_name metadata_folder runner model_tag : string)
    (cheat_mode dry_run wipe_db : bool) (mode : string)
    (split_transaction : bool) (w w' : world) (out : outcome unit)
    (new : list event) :
  c3dc_hub_data_loader ext secret_name metadata_folder runner model_tag
    cheat_mode dry_run wipe_db mode split_transaction w = (out, w') ->
  added w w' new ->
  (forall path text, FileWritten path text ∈ new -> path = "props_file.yaml")
  /\ (forall path, path <> "props_file.yaml" ->
        files w' !! path = files w !! path)
  /\ (forall params,
        LoaderInvoked params ∈ new ->
        exists pre post text,
          new = pre ++ LoaderInvoked params :: post
          /\ FileWritten "props_file.yaml" text ∈ pre
          /\ Forall (fun ev => is_loader_call ev = false) pre
          /\ Forall harmless post).
Proof.
  intros Hrun Hadd. split; [|split].
  - intros path text Hin. pose proof Hrun as Hrun'. apply flow_inv in Hrun'.
    destruct (flow_run_dichotomy _ _ _ _ _ _ _ _ _ _ _ _ _ Hrun')
      as [(_ & _ & new' & Hadd' & Hall)
         |(secret & uri & password & s3_bucket & content & d & nodes
           & _ & _ & _ & _ & _ & _ & _ & _ & Hadd')];
      unfold added in *; rewrite Hadd in Hadd'; apply app_inv_head in Hadd';
      subst new.
    + now apply not_file_write_harmless with (path := path) (text := text) in Hall.
    + apply elem_of_app in Hin as [Hin|Hin].
      { now apply not_file_write_harmless in Hin;
          [|apply guard_events_harmless]. }
      apply elem_of_cons in Hin as [Hin|Hin]; [discriminate|].
      apply elem_of_app in Hin as [Hin|Hin].
      { apply elem_of_cons in Hin as [Hin|Hin]; [discriminate|].
        apply elem_of_cons in Hin as [Hin|Hin]; [now inversion Hin|].
        repeat (apply elem_of_cons in Hin as [Hin|Hin]; [discriminate|]).
        now apply elem_of_nil in Hin. }
      unfold load_events in Hin. apply elem_of_app in Hin as [Hin|Hin].
      { repeat (apply elem_of_cons in Hin as [Hin|Hin]; [discriminate|]).
        now apply elem_of_nil in Hin. }
      destruct (loader_main ext _);
        repeat (apply elem_of_cons in Hin as [Hin|Hin]; [discriminate|]);
        now apply elem_of_nil in Hin.
  - intros path Hne. apply flow_inv in Hrun.
    destruct (flow_run_dichotomy _ _ _ _ _ _ _ _ _ _ _ _ _ Hrun)
      as [(_ & Hfiles & _)
         |(secret & uri & password & s3_bucket & content & d & nodes
           & _ & _ & _ & _ & _ & _ & _ & Hfiles & _)].
    + now rewrite Hfiles.
    + rewrite Hfiles. apply lookup_insert_ne. congruence.
  - intros params Hin.
    destruct (flow_loader_call_inv _ _ _ _ _ _ _ _ _ _ _ _ _ _ _ Hrun Hadd Hin)
      as (secret & uri & password & s3_bucket & content & d & nodes
          & _ & _ & _ & _ & _ & _ & _ & _ & ->).
    eexists (guard_events secret_name model_tag (Some model_tag)
             ++ [match_event] ++ prop_file_events _
             ++ [Printed "start loading data"]), _, _.
    split; [|split; [|split]].
    + unfold load_events. rewrite <- !app_assoc. reflexivity.
    + apply elem_of_app. right. right. apply elem_of_app. left. right. now left.
    + repeat constructor.
    + destruct (loader_main ext params); repeat constructor.
Qed.

Lemma flow_effects_in_order_witness :
  (forall path text,
     FileWritten path text ∈ events (snd (Sample.run "batch1" "me/" "v2.3.0")) ->
     path = "props_file.yaml")
  /\ files (snd (Sample.run "batch1" "me/" "v2.3.0")) !! Sample.model_path
     = files Sample.good_world !! Sample.model_path.
Proof.
  destruct (flow_effects_in_order Sample.ext "c3dc/dev" "batch1" "me/" "v2.3.0"
              false true false "upsert" true Sample.good_world _ _ _
              (surjective_pairing _) eq_refl) as (Hwrite & Hfiles & _).
  split; [exact Hwrite|]. apply Hfiles. discriminate.
Defined.

(** X18. A mismatch is reported before the flow raises: it prints the
    expected tag and the resolved one ([None] for an untagged commit, after
    the notice of [get_git_tag]), then the two lines that say they differ,
    and raises [ValueError] with the first of those lines as its message. *)
Theorem mismatch_report (ext : externals)
    (secret_name metadata_folder runner model_tag : string)
    (cheat_mode dry_run wipe_db : bool) (mode : string)
    (split_transaction : bool) (w : world) (secret : gmap string string)
    (fields : string * string * string) (resolved : option string) :
  secret_manager_get_secret ext secret_name = inr secret ->
  secret_fields secret = Some fields ->
  fst (get_git_tag ext "../c3dc-model/" w) = Returned resolved ->
  resolved <> Some model_tag ->
  c3dc_hub_data_loader ext secret_name metadata_folder runner model_tag
    cheat_mode dry_run wipe_db mode split_transaction w
  = (Raised (ValueError
               "The model branch pulled is not the same as the input model tag"),
     emit w
       ([Printed "Getting secrets from AWS Secrets Manager";
         SecretFetched secret_name;
         Subprocess ["git"; "describe"; "--tags"; "--exact-match"]
           "../c3dc-model/"]
        ++ match resolved with
           | None => [Printed "No tag found for the current commit."]
           | Some _ => []
           end
        ++ [Printed ("Provided model tag: " +:+ model_tag);
            Printed ("Pulled c3dc-model tag: "
                     +:+ match resolved with
                         | Some tag => tag
                         | None => "None"
                         end);
            Printed
              "The model branch pulled is not the same as the input model tag";
            Printed ("The model branch pulled is "
                     +:+ match resolved with
                         | Some tag => tag
                         | None => "None"
                         end
                     +:+ " and the input model tag is " +:+ model_tag
                     +:+ ". Redeployment using the desired model tag is required.")])).
Proof.
  intros Hsec Hfields Htag Hne. rewrite get_git_tag_outcome in Htag.
  fold model_repo in Htag.
  destruct (c3dc_hub_data_loader ext secret_name metadata_folder runner
              model_tag cheat_mode dry_run wipe_db mode split_transaction w)
    as [out w'] eqn:Hrun.
  apply flow_inv in Hrun.
  inversion Hrun; subst;
    try match goal with
        | H : secret_manager_get_secret ext secret_name = _ |- _ =>
            rewrite Hsec in H; inversion H; subst
        end;
    try match goal with
        | H : tag_resolution ext model_repo = _ |- _ =>
            rewrite Htag in H; inversion H; subst
        end;
    try congruence.
  destruct w' as [fs evs]. unfold added in *. cbn [files events] in *.
  subst fs evs. unfold emit, guard_events, mismatch_events, git_describe_cmd,
    model_repo, mismatch_message.
  f_equal. f_equal. now rewrite <- !app_assoc.
Qed.

Lemma mismatch_report_witness :
  events (snd (Variant.run Sample.ext_untagged "batch1" "me" "v2.3.0"))
  = [Printed "Getting secrets from AWS Secrets Manager";
     SecretFetched "c3dc/dev";
     Subprocess ["git"; "describe"; "--tags"; "--exact-match"] "../c3dc-model/";
     Printed "No tag found for the current commit.";
     Printed "Provided model tag: v2.3.0";
     Printed "Pulled c3dc-model tag: None";
     Printed "The model branch pulled is not the same as the input model tag";
     Printed "The model branch pulled is None and the input model tag is v2.3.0. Redeployment using the desired model tag is required."].
Proof.
  pose proof (mismatch_report Sample.ext_untagged "c3dc/dev" "batch1" "me"
                "v2.3.0" false true false "upsert" true Sample.good_world
                Sample.secret _ None eq_refl eq_refl eq_refl
                ltac:(discriminate)) as H.
  exact (f_equal (fun r => events (snd r)) H).
Defined.

(** ** [load_data] and [Config] *)

(** X16. [load_data] calls the loader exactly once and changes no file; it
    returns when [main] returns and raises what [main] raises.  The [Config]
    it builds, through twenty-two positional arguments, holds every
    parameter in the attribute meant for it ([s3_bucket] as [bucket],
    [schemas] as [schema], [max_violation] as [max_violations],
    [split_transaction] as [split_transactions]), wraps every plugin, in
    order, in a [PluginConfig], and has no configuration file. *)
Theorem load_data_calls_loader_once (ext : externals)
    (s3_bucket s3_folder : string) (upload_log_dir : option string)
    (dataset temp_folder uri user password : string) (schemas : list string)
    (prop_file backup_folder : string)
    (cheat_mode dry_run wipe_db no_backup no_parents verbose yes : bool)
    (max_violation : Z) (mode : string) (split_transaction : bool)
    (plugins : list pyval) (w : world) :
  exists params,
    load_data ext s3_bucket s3_folder upload_log_dir dataset temp_folder uri
      user password schemas prop_file backup_folder cheat_mode dry_run wipe_db
      no_backup no_parents verbose yes max_violation mode split_transaction
      plugins w
    = (match loader_main ext params with
       | None => Returned tt
       | Some e => Raised e
       end,
       emit w [LoaderInvoked params])
    /\ Config.dataset params = dataset
    /\ Config.uri params = uri
    /\ Config.user params = user
    /\ Config.password params = password
    /\ Config.schema params = schemas
    /\ Config.prop_file params = prop_file
    /\ Config.bucket params = s3_bucket
    /\ Config.s3_folder params = s3_folder
    /\ Config.backup_folder params = backup_folder
    /\ Config.cheat_mode params = cheat_mode
    /\ Config.dry_run params = dry_run
    /\ Config.wipe_db params = wipe_db
    /\ Config.no_backup params = no_backup
    /\ Config.no_parents params = no_parents
    /\ Config.verbose params = verbose
    /\ Config.yes params = yes
    /\ Config.max_violations params = max_violation
    /\ Config.mode params = mode
    /\ Config.split_transactions params = split_transaction
    /\ Config.upload_log_dir params = upload_log_dir
    /\ Config.temp_folder params = temp_folder
    /\ Config.config_file params = None
    /\ length (Config.plugins params) = length plugins
    /\ forall i plugin,
         plugins !! i = Some plugin ->
         Config.plugins params !! i = Some (mkPluginConfig plugin).
Proof.
  exists (Config.init dataset uri user password schemas prop_file s3_bucket
            s3_folder backup_folder cheat_mode dry_run wipe_db no_backup
            no_parents verbose yes max_violation mode split_transaction
            upload_log_dir plugins temp_folder).
  split.
  - unfold load_data. unfold bind at 1. rewrite main_run.
    unfold load_outcome. destruct (loader_main ext _); reflexivity.
  - cbn [Config.init Config.dataset Config.uri Config.user Config.password
         Config.schema Config.prop_file Config.bucket Config.s3_folder
         Config.backup_folder Config.cheat_mode Config.dry_run Config.wipe_db
         Config.no_backup Config.no_parents Config.verbose Config.yes
         Config.max_violations Config.mode Config.split_transactions
         Config.upload_log_dir Config.temp_folder Config.config_file
         Config.plugins].
    do 22 (split; [reflexivity|]). split; [apply length_map|].
    intros i plugin Hi.
    change (map mkPluginConfig plugins) with (mkPluginConfig <$> plugins).
    now rewrite list_lookup_fmap, Hi.
Qed.

(** ** [get_time] *)

Lemma string_length_app (a b : string) :
  String.length (a +:+ b) = String.length a + String.length b.
Proof.
  induction a as [|c a IH]; [reflexivity|].
  rewrite string_app_cons. cbn [String.length]. now rewrite IH.
Qed.

Lemma zfill_2_length (n : nat) : n < 100 -> String.length (zfill 2 n) = 2.
Proof.
  intros Hn.
  assert (Hall : forallb (fun k => Nat.eqb (String.length (zfill 2 k)) 2)
                   (seq 0 100) = true) by (vm_compute; reflexivity).
  rewrite forallb_forall in Hall. apply Nat.eqb_eq, Hall, in_seq. lia.
Qed.

Lemma zfill_4_length (n : nat) : n < 100 * 100 -> String.length (zfill 4 n) = 4.
Proof.
  intros Hn.
  assert (Hall : forallb (fun k => Nat.eqb (String.length (zfill 4 k)) 4)
                   (seq 0 (100 * 100)) = true) by (vm_compute; reflexivity).
  rewrite forallb_forall in Hall. apply Nat.eqb_eq, Hall, in_seq. lia.
Qed.

(** X17. For a clock reading with a year of four digits (1000 to 9999) and
    the other fields in the range Python's [datetime] allows (month to 12,
    day to 31, hour to 23, minute and second to 59), [get_time] returns
    sixteen characters: eight for the date, ["_T"], and six for the time;
    the microseconds of the reading play no part.  It changes nothing in
    the world. *)
Theorem get_time_fixed_width (ext : externals) (w : world) :
  1000 <= year (datetime_now ext "EST") ->
  year (datetime_now ext "EST") < 100 * 100 ->
  month (datetime_now ext "EST") <= 12 ->
  day (datetime_now ext "EST") <= 31 ->
  hour (datetime_now ext "EST") <= 23 ->
  minute (datetime_now ext "EST") <= 59 ->
  second (datetime_now ext "EST") <= 59 ->
  exists date time,
    get_time ext w = (Returned (date +:+ "_T" +:+ time), w)
    /\ date = zfill 4 (year (datetime_now ext "EST"))
              +:+ zfill 2 (month (datetime_now ext "EST"))
              +:+ zfill 2 (day (datetime_now ext "EST"))
    /\ time = zfill 2 (hour (datetime_now ext "EST"))
              +:+ zfill 2 (minute (datetime_now ext "EST"))
              +:+ zfill 2 (second (datetime_now ext "EST"))
    /\ String.length date = 8
    /\ String.length time = 6
    /\ String.length (date +:+ "_T" +:+ time) = 16.
Proof.
  intros _ Hy Hm Hd HH HM HS. eexists _, _.
  split; [|split; [reflexivity|split; [reflexivity|]]].
  - unfold get_time, ret. fold timestamp_format.
    rewrite strftime_timestamp. now rewrite !string_app_assoc.
  - rewrite !string_length_app.
    rewrite zfill_4_length by assumption.
    rewrite !zfill_2_length by lia. cbn [String.length]. repeat split.
Qed.

Lemma get_time_fixed_width_witness :
  exists date time,
    get_time Sample.ext Sample.good_world
    = (Returned (date +:+ "_T" +:+ time), Sample.good_world)
    /\ date = "20240307"
    /\ time = "090501"
    /\ String.length date = 8
    /\ String.length time = 6
    /\ String.length (date +:+ "_T" +:+ time) = 16.
Proof.
  exact (get_time_fixed_width Sample.ext Sample.good_world
           ltac:(vm_compute; lia)
           ltac:(vm_compute; lia) ltac:(vm_compute; lia) ltac:(vm_compute; lia)
           ltac:(vm_compute; lia) ltac:(vm_compute; lia) ltac:(vm_compute; lia)).
Defined.

(** ** The derivation inside the flow *)

Lemma prop_file_failure_run (ext : externals)
    (model_yaml delimiter domain_value : string) (w : world) (e : exn)
    (new : list event) :
  prop_file_failure ext model_yaml (files w) e new ->
  create_prop_file ext model_yaml delimiter domain_value w
  = (Raised e, emit w new).
Proof.
  intros Hfail. unfold create_prop_file, bind, read_file.
  inversion Hfail as [Hf|content Hf Hl|content doc e' w1 Hf Hl Hsub
                     |content doc nodes e' w1 Hf Hl Hsub Hkeys]; subst.
  - rewrite Hf. unfold emit. rewrite app_nil_r. now destruct w.
  - now rewrite Hf, Hl.
  - rewrite Hf, Hl. cbn [ret].
    destruct doc as [| | | | |d]; cbn in Hsub |- *;
      try (inversion Hsub; subst; reflexivity).
    destruct (getitem d "Nodes"); inversion Hsub; subst. reflexivity.
  - rewrite Hf, Hl. cbn [ret].
    destruct doc as [| | | | |d]; cbn in Hsub |- *; try discriminate.
    destruct (getitem d "Nodes") as [x|]; [|discriminate].
    inversion Hsub; subst x.
    destruct nodes; cbn in Hkeys |- *;
      try (inversion Hkeys; subst; reflexivity).
Qed.

(** X19. When the secret was read and the tags agree, a failure of the
    derivation on the first model file is the failure of the flow: the flow
    raises the same exception, no file is changed, nothing is written and
    the loader is not called. *)
Theorem derivation_failure_stops_flow (ext : externals)
    (secret_name metadata_folder runner model_tag : string)
    (cheat_mode dry_run wipe_db : bool) (mode : string)
    (split_transaction : bool) (w : world) (secret : gmap string string)
    (fields : string * string * string) (e : exn) :
  secret_manager_get_secret ext secret_name = inr secret ->
  secret_fields secret = Some fields ->
  fst (get_git_tag ext "../c3dc-model/" w) = Returned (Some model_tag) ->
  fst (create_prop_file ext "../c3dc-model/model-desc/c3dc-model.yml" ";"
         "clinicalcommons.ccdi.cancer.gov" w) = Raised e ->
  exists w',
    c3dc_hub_data_loader ext secret_name metadata_folder runner model_tag
      cheat_mode dry_run wipe_db mode split_transaction w = (Raised e, w')
    /\ files w' = files w
    /\ exists new, added w w' new /\ Forall harmless new.
Proof.
  intros Hsec Hfields Htag Hprop. rewrite get_git_tag_outcome in Htag.
  fold model_repo in Htag.
  destruct (c3dc_hub_data_loader ext secret_name metadata_folder runner
              model_tag cheat_mode dry_run wipe_db mode split_transaction w)
    as [out w'] eqn:Hrun.
  exists w'. apply flow_inv in Hrun.
  inversion Hrun; subst;
    try match goal with
        | H : secret_manager_get_secret ext secret_name = _ |- _ =>
            rewrite Hsec in H; inversion H; subst
        end;
    try match goal with
        | H : tag_resolution ext model_repo = _ |- _ =>
            rewrite Htag in H; inversion H; subst
        end;
    try congruence.
  - match goal with
    | H : prop_file_failure _ _ _ _ _ |- _ =>
        pose proof (prop_file_failure_harmless _ _ _ _ _ H) as Hharm;
        apply (prop_file_failure_run ext _ ";" "clinicalcommons.ccdi.cancer.gov")
          in H; rewrite H in Hprop
    end.
    cbn [fst] in Hprop. inversion Hprop; subst.
    split; [reflexivity|]. split; [assumption|].
    eexists. split; [eassumption|].
    apply Forall_app. split; [apply guard_events_harmless|].
    apply Forall_cons. split; [repeat constructor|exact Hharm].
  - match goal with
    | Hf : files w !! _ = Some ?c, Hl : yaml_safe_load ext ?c = Some (PyDict ?d),
      Hn : getitem ?d "Nodes" = Some (PyDict ?nodes) |- _ =>
        rewrite (create_prop_file_run ext _ ";" "clinicalcommons.ccdi.cancer.gov"
                   c d nodes w Hf Hl Hn) in Hprop
    end.
    discriminate Hprop.
Qed.

Lemma derivation_failure_stops_flow_witness :
  exists w',
    c3dc_hub_data_loader Sample.ext "c3dc/dev" "batch1" "me" "v2.3.0" false
      true false "upsert" true (Sample.world_with ": :")
    = (Raised YAMLError, w')
    /\ files w' = files (Sample.world_with ": :").
Proof.
  destruct (derivation_failure_stops_flow Sample.ext "c3dc/dev" "batch1" "me"
              "v2.3.0" false true false "upsert" true (Sample.world_with ": :")
              Sample.secret _ YAMLError eq_refl eq_refl eq_refl eq_refl)
    as (w' & Hrun & Hfiles & _).
  exists w'. split; assumption.
Defined.

(** X20. The property file a run of the flow leaves behind does not depend
    on the caller's inputs: it is the dump of the document derived from the
    node names of the first model file with the domain
    [clinicalcommons.ccdi.cancer.gov] and the delimiter [;]. *)
Theorem flow_prop_file_constants (ext : externals)
    (secret_name metadata_folder runner model_tag : string)
    (cheat_mode dry_run wipe_db : bool) (mode : string)
    (split_transaction : bool) (w w' : world) (out : outcome unit)
    (new : list event) (path text : string) :
  c3dc_hub_data_loader ext secret_name metadata_folder runner model_tag
    cheat_mode dry_run wipe_db mode split_transaction w = (out, w') ->
  added w w' new ->
  FileWritten path text ∈ new ->
  exists content d nodes properties,
    files w !! "../c3dc-model/model-desc/c3dc-model.yml" = Some content
    /\ yaml_safe_load ext content = Some (PyDict d)
    /\ getitem d "Nodes" = Some (PyDict nodes)
    /\ text = yaml_dump ext (PyDict [("Properties", PyDict properties)]) false
    /\ files w' !! "props_file.yaml" = Some text
    /\ getitem properties "domain_value"
       = Some (PyStr "clinicalcommons.ccdi.cancer.gov")
    /\ getitem properties "delimiter" = Some (PyStr ";")
    /\ properties
       = [("domain_value", PyStr "clinicalcommons.ccdi.cancer.gov");
          ("rel_prop_delimiter", PyStr "$");
          ("delimiter", PyStr ";");
          ("plurals", str_dict (fst (node_loop ext (keys nodes))));
          ("type_mapping", PyDict type_mapping);
          ("id_fields", str_dict (snd (node_loop ext (keys nodes))))].
Proof.
  intros Hrun Hadd Hin. apply flow_inv in Hrun.
  destruct (flow_run_dichotomy _ _ _ _ _ _ _ _ _ _ _ _ _ Hrun)
    as [(_ & _ & new' & Hadd' & Hall)
       |(secret & uri & password & s3_bucket & content & d & nodes
         & _ & _ & _ & Hf & Hl & Hn & _ & Hfiles & Hadd')];
    unfold added in *; rewrite Hadd in Hadd'; apply app_inv_head in Hadd';
    subst new.
  { now apply not_file_write_harmless with (path := path) (text := text) in Hall. }
  assert (Htext : text = prop_file_text ext "clinicalcommons.ccdi.cancer.gov"
                           ";" (keys nodes)).
  { apply elem_of_app in Hin as [Hin|Hin].
    { now apply not_file_write_harmless in Hin; [|apply guard_events_harmless]. }
    apply elem_of_cons in Hin as [Hin|Hin]; [discriminate|].
    apply elem_of_app in Hin as [Hin|Hin].
    { apply elem_of_cons in Hin as [Hin|Hin]; [discriminate|].
      apply elem_of_cons in Hin as [Hin|Hin]; [now inversion Hin|].
      repeat (apply elem_of_cons in Hin as [Hin|Hin]; [discriminate|]).
      now apply elem_of_nil in Hin. }
    unfold load_events in Hin. apply elem_of_app in Hin as [Hin|Hin].
    { repeat (apply elem_of_cons in Hin as [Hin|Hin]; [discriminate|]).
      now apply elem_of_nil in Hin. }
    destruct (loader_main ext _);
      repeat (apply elem_of_cons in Hin as [Hin|Hin]; [discriminate|]);
      now apply elem_of_nil in Hin. }
  exists content, d, nodes. eexists.
  do 3 (split; [assumption|]).
  split; [rewrite Htext; unfold prop_file_text;
          rewrite prop_document_shape; reflexivity|].
  split; [rewrite Hfiles, Htext; apply lookup_insert_eq|].
  repeat split.
Qed.

Lemma flow_prop_file_constants_witness :
  exists content d nodes properties,
    files Sample.good_world !! "../c3dc-model/model-desc/c3dc-model.yml"
    = Some content
    /\ yaml_safe_load Sample.ext content = Some (PyDict d)
    /\ getitem d "Nodes" = Some (PyDict nodes)
    /\ getitem properties "domain_value"
       = Some (PyStr "clinicalcommons.ccdi.cancer.gov")
    /\ getitem properties "delimiter" = Some (PyStr ";").
Proof.
  assert (Hin : FileWritten "props_file.yaml" "Properties: {}"
                ∈ events (snd (Sample.run "batch1" "me/" "v2.3.0"))).
  { vm_compute. do 7 apply list_elem_of_further. apply list_elem_of_here. }
  destruct (flow_prop_file_constants Sample.ext "c3dc/dev" "batch1" "me/"
              "v2.3.0" false true false "upsert" true Sample.good_world _ _ _
              _ _ (surjective_pairing _) eq_refl Hin)
    as (content & d & nodes & properties & Hf & Hl & Hn & _ & _ & Hdom & Hdel & _).
  exists content, d, nodes, properties. auto.
Defined.
